(** * ensmallen: the Padam facade over the SGD driver

    A shallow embedding of [include/ensmallen_bits/padam/padam.hpp]: the
    [Padam] class, its constructor, its two [Optimize] overloads and its
    accessor pairs.  The facade owns one [SGD<PadamUpdate>] object and
    forwards everything to it.  The headers it includes ([sgd/sgd.hpp],
    [padam_update.hpp], the decay policies and the callback dispatcher) are
    not among the sources at hand; what the facade needs of them is modelled
    from the specification, and every such definition says so. *)

From Stdlib Require Import PeanoNat NArith List Bool Lia.
From Stdlib Require Import Floats.PrimFloat Floats.SpecFloat Floats.FloatOps Floats.FloatAxioms.
Import ListNotations.

Set Warnings "-inexact-float".
Local Open Scope N_scope.

(** ** Scalars *)

(** C++ [double] is IEEE binary64, which is what the kernel's [float] is. *)
Definition double : Type := float.

(** [size_t] values are only stored and compared by the facade. *)
Abbreviation size_t := N (only parsing).

(** ** The numeric matrix abstraction (external collaborator) *)

(** Modelled from the spec: the matrix type, a template parameter of
    [Optimize] supplied by the numeric backend, is consumed "through a
    narrow interface": its element type ([MatType::elem_type]), its shape,
    and the element arithmetic the driver needs to accumulate an objective
    and to test it against the tolerance. *)
Class ArmaType (MatType : Type) : Type := {
  elem_type : Type;
  n_rows : MatType -> size_t;
  n_cols : MatType -> size_t;
  (** the additive unit objectives are accumulated from *)
  elem_zero : elem_type;
  elem_add : elem_type -> elem_type -> elem_type;
  (** [elem_mean s k]: the sum [s] of [k] losses turned into their average *)
  elem_mean : elem_type -> size_t -> elem_type;
  (** [elem_within a b tol]: [|a - b| < tol] *)
  elem_within : elem_type -> elem_type -> double -> bool
}.

Definition n_elem {MatType} `{ArmaType MatType} (m : MatType) : size_t :=
  n_rows m * n_cols m.

(** ** The objective function contract (separable, differentiable) *)
Module Objective.

(** Modelled from the spec: the contract of section 6 for separable
    functions, [NumFunctions() -> count], [Evaluate(params, sampleStart,
    batchSize)] and [Gradient(params, sampleStart, batchSize, gradientOut)],
    with the reshuffling of the visiting order that the driver asks for at
    the start of an epoch. *)
Class SeparableFunctionType (F MatType GradType : Type) `{ArmaType MatType} : Type := {
  NumFunctions : F -> size_t;
  (** [Shuffle] regenerates the visiting order kept inside the function *)
  Shuffle : F -> F;
  (** [Evaluate f x start batch] *)
  Evaluate : F -> MatType -> size_t -> size_t -> elem_type;
  (** [Gradient f x start batch] *)
  Gradient : F -> MatType -> size_t -> size_t -> GradType
}.

End Objective.
Abbreviation SeparableFunctionType := Objective.SeparableFunctionType.

(** ** Update and decay policies (strategy interfaces) *)

(** Modelled from the spec: the update policy contract of section 4.2,
    "Initialize(rows, cols) allocates moment accumulators to the parameter
    shape" and "Update(iterate, stepSize, gradient) mutates iterate in
    place"; the policy object owns its state. *)
Class UpdatePolicyType (U MatType GradType : Type) : Type := {
  (** [Initialize u rows cols] *)
  Initialize : U -> size_t -> size_t -> U;
  (** [Update u iterate stepSize gradient]: the policy and the new iterate *)
  Update : U -> MatType -> double -> GradType -> U * MatType
}.

(** Modelled from the spec: the decay policy "encapsulates step-size
    scheduling over iterations", with the "same reset/lifecycle rule" as the
    update policy. *)
Class DecayPolicyType (D MatType GradType : Type) : Type := {
  DecayInitialize : D -> size_t -> size_t -> D;
  (** [DecayUpdate d iterate stepSize gradient]: the policy and the step
      size for the next batch *)
  DecayUpdate : D -> MatType -> double -> GradType -> D * double
}.

(** ** Callback hooks *)

(** Modelled from the spec: the hooks of section 4.4, fired at "optimization
    start, epoch start/end, step start/end, and after each gradient
    computation".  Each returns the callback after the call (hooks are not
    side-effect free) and whether it asks to stop. *)
Class CallbackType (CB MatType GradType : Type) `{ArmaType MatType} : Type := {
  BeginOptimization : CB -> MatType -> CB * bool;
  BeginEpoch : CB -> MatType -> size_t -> CB * bool;
  EndEpoch : CB -> MatType -> size_t -> elem_type -> CB * bool;
  BeginStep : CB -> MatType -> CB * bool;
  GradientComputed : CB -> MatType -> GradType -> CB * bool;
  EndStep : CB -> MatType -> CB * bool
}.

(** ** What a call leaves behind *)

(** [Optimize] takes the optimizer ([this]), the function, the iterate and
    the callbacks by reference.  A call is a function from these four objects
    to the four objects after the call, together with either the returned
    value or the failure signalled to the caller. *)
Record Store (Self F MatType CB : Type) : Type := mkStore {
  st_self : Self;
  st_function : F;
  st_iterate : MatType;
  st_callbacks : list CB
}.
Arguments mkStore {Self F MatType CB}.
Arguments st_self {Self F MatType CB}.
Arguments st_function {Self F MatType CB}.
Arguments st_iterate {Self F MatType CB}.
Arguments st_callbacks {Self F MatType CB}.

(** Modelled from the spec: the configuration errors of sections 4.1, 4.3
    and 7: "invalid dimensionality, zero batch/swarm size, malformed
    bounds". *)
Inductive ConfigurationError : Type :=
| EmptyIterate
| ZeroBatchSize
| NoFunctions
| ZeroSwarmSize
| MalformedBounds
| BoundsShapeMismatch.

(** A call returns a value, or signals a failure "rather than a partial
    result"; either way the four objects are in some state afterwards. *)
Inductive Outcome (Self F MatType CB E : Type) : Type :=
| Returned (value : E) (after : Store Self F MatType CB)
| Threw (err : ConfigurationError) (after : Store Self F MatType CB).
Arguments Returned {Self F MatType CB E}.
Arguments Threw {Self F MatType CB E}.

Definition outcome_store {Self F MatType CB E}
    (o : Outcome Self F MatType CB E) : Store Self F MatType CB :=
  match o with Returned _ s => s | Threw _ s => s end.

(** The caller of a member function sees the enclosing object updated. *)
Definition map_self {S1 S2 F MatType CB E} (wrap : S1 -> S2)
    (o : Outcome S1 F MatType CB E) : Outcome S2 F MatType CB E :=
  match o with
  | Returned v s =>
      Returned v (mkStore (wrap (st_self s)) (st_function s) (st_iterate s) (st_callbacks s))
  | Threw e s =>
      Threw e (mkStore (wrap (st_self s)) (st_function s) (st_iterate s) (st_callbacks s))
  end.

(** ** NoDecay *)
Module NoDecay.

(** Modelled from the spec: [NoDecay] (sgd/decay_policies/no_decay.hpp is
    not among the sources) is the decay policy that "may be a no-op": it has
    no state and hands the step size back unchanged. *)
Inductive t : Type := NoDecay.

(** Modelled from the spec: the no-op schedule. *)
#[global] Instance decay {MatType GradType} : DecayPolicyType t MatType GradType := {
  DecayInitialize d _ _ := d;
  DecayUpdate d _ stepSize _ := (d, stepSize)
}.

End NoDecay.

(** ** PadamUpdate *)
Module PadamUpdate.

(** Modelled from the spec: [PadamUpdate] (padam_update.hpp is not among
    the sources) holds the four hyper-parameters it is constructed from, in the
    order [PadamUpdate(epsilon, beta1, beta2, partial)] of the facade's
    constructor, and owns the per-coordinate moment accumulators, which do
    not exist before the first [Initialize].  [Moments] is their
    representation for the matrix type at hand. *)
Record t (Moments : Type) : Type := mk {
  epsilon : double;
  beta1 : double;
  beta2 : double;
  partial : double;
  moments : option Moments
}.
Arguments mk {Moments}.
Arguments epsilon {Moments}.
Arguments beta1 {Moments}.
Arguments beta2 {Moments}.
Arguments partial {Moments}.
Arguments moments {Moments}.

(** Modelled from the spec: the constructor, with the argument order of the
    facade's call; a new policy has no accumulators yet. *)
Definition PadamUpdate {Moments} (epsilon beta1 beta2 partial : double) : t Moments :=
  mk epsilon beta1 beta2 partial None.

(** The hyper-parameters of a policy object, apart from its accumulators. *)
Definition hyper {Moments} (u : t Moments) : double * double * double * double :=
  (epsilon u, beta1 u, beta2 u, partial u).

(** Modelled from the spec: the accessor pairs the facade forwards to
    ([optimizer.UpdatePolicy().Beta1()] and the like): the [const] overload
    reads the field, the overload returning a reference assigns it. *)
Section Accessors.
Context {Moments : Type}.
Implicit Type u : t Moments.

Definition Epsilon u : double := epsilon u.
Definition set_Epsilon (v : double) u : t Moments :=
  mk v (beta1 u) (beta2 u) (partial u) (moments u).

Definition Beta1 u : double := beta1 u.
Definition set_Beta1 (v : double) u : t Moments :=
  mk (epsilon u) v (beta2 u) (partial u) (moments u).

Definition Beta2 u : double := beta2 u.
Definition set_Beta2 (v : double) u : t Moments :=
  mk (epsilon u) (beta1 u) v (partial u) (moments u).

Definition Partial u : double := partial u.
Definition set_Partial (v : double) u : t Moments :=
  mk (epsilon u) (beta1 u) (beta2 u) v (moments u).
End Accessors.

(** Modelled from the spec: the arithmetic of the Padam rule (section 4.2)
    is supplied by the numeric backend: [zeros rows cols] are zero-filled
    accumulators of the parameter shape, and [rule] is one application of
    the rule to the accumulators, the iterate, the step size and the
    gradient under the four hyper-parameters. *)
Class Rule (Moments MatType GradType : Type) : Type := {
  zeros : size_t -> size_t -> Moments;
  rule : forall (epsilon beta1 beta2 partial : double),
    Moments -> MatType -> double -> GradType -> Moments * MatType
}.

Section Policy.
Context {Moments MatType GradType : Type}.
Context `{ArmaType MatType} `{Rule Moments MatType GradType}.

(** Modelled from the spec: "first use lazily allocates to that shape". *)
Definition allocated (u : t Moments) rows cols : Moments :=
  match moments u with
  | Some m => m
  | None => zeros rows cols
  end.

(** Modelled from the spec: "Initialize(rows, cols) allocates moment
    accumulators to the parameter shape, zero-filled"; [Update] applies the
    rule, allocating first when nothing is there yet, and touches "iterate
    and internal moment state only". *)
#[global] Instance policy : UpdatePolicyType (t Moments) MatType GradType := {
  Initialize u rows cols :=
    mk (epsilon u) (beta1 u) (beta2 u) (partial u) (Some (zeros rows cols));
  Update u iterate stepSize gradient :=
    let '(m, x) :=
      rule (epsilon u) (beta1 u) (beta2 u) (partial u)
           (allocated u (n_rows iterate) (n_cols iterate))
           iterate stepSize gradient in
    (mk (epsilon u) (beta1 u) (beta2 u) (partial u) (Some m), x)
}.
End Policy.

End PadamUpdate.

(** ** The SGD driver object *)
Module SGD.

(** Modelled from the spec: [SGD<UpdatePolicyType, DecayPolicyType>]
    (sgd/sgd.hpp is not among the sources) keeps the nine values its
    constructor receives, in the order the facade passes them, and exposes
    one get/set accessor pair for each. *)
Record t (U D : Type) : Type := mk {
  stepSize : double;
  batchSize : size_t;
  maxIterations : size_t;
  tolerance : double;
  shuffle : bool;
  updatePolicy : U;
  decayPolicy : D;
  resetPolicy : bool;
  exactObjective : bool
}.
Arguments mk {U D}.
Arguments stepSize {U D}.
Arguments batchSize {U D}.
Arguments maxIterations {U D}.
Arguments tolerance {U D}.
Arguments shuffle {U D}.
Arguments updatePolicy {U D}.
Arguments decayPolicy {U D}.
Arguments resetPolicy {U D}.
Arguments exactObjective {U D}.

(** Modelled from the spec: the constructor, with the argument order of the
    facade's member initialiser. *)
Definition SGD {U D} (stepSize : double) (batchSize maxIterations : size_t)
    (tolerance : double) (shuffle : bool) (updatePolicy : U) (decayPolicy : D)
    (resetPolicy exactObjective : bool) : t U D :=
  mk stepSize batchSize maxIterations tolerance shuffle updatePolicy decayPolicy
     resetPolicy exactObjective.

(** Modelled from the spec: the accessor pairs the facade forwards to: the
    [const] overload reads the field, the overload returning a reference
    assigns it. *)
Section Accessors.
Context {U D : Type}.
Implicit Type o : t U D.

Definition StepSize o := stepSize o.
Definition set_StepSize (v : double) o : t U D :=
  mk v (batchSize o) (maxIterations o) (tolerance o) (shuffle o)
     (updatePolicy o) (decayPolicy o) (resetPolicy o) (exactObjective o).

Definition BatchSize o := batchSize o.
Definition set_BatchSize (v : size_t) o : t U D :=
  mk (stepSize o) v (maxIterations o) (tolerance o) (shuffle o)
     (updatePolicy o) (decayPolicy o) (resetPolicy o) (exactObjective o).

Definition MaxIterations o := maxIterations o.
Definition set_MaxIterations (v : size_t) o : t U D :=
  mk (stepSize o) (batchSize o) v (tolerance o) (shuffle o)
     (updatePolicy o) (decayPolicy o) (resetPolicy o) (exactObjective o).

Definition Tolerance o := tolerance o.
Definition set_Tolerance (v : double) o : t U D :=
  mk (stepSize o) (batchSize o) (maxIterations o) v (shuffle o)
     (updatePolicy o) (decayPolicy o) (resetPolicy o) (exactObjective o).

Definition Shuffle o := shuffle o.
Definition set_Shuffle (v : bool) o : t U D :=
  mk (stepSize o) (batchSize o) (maxIterations o) (tolerance o) v
     (updatePolicy o) (decayPolicy o) (resetPolicy o) (exactObjective o).

Definition UpdatePolicy o := updatePolicy o.
Definition set_UpdatePolicy (v : U) o : t U D :=
  mk (stepSize o) (batchSize o) (maxIterations o) (tolerance o) (shuffle o)
     v (decayPolicy o) (resetPolicy o) (exactObjective o).

Definition DecayPolicy o := decayPolicy o.
Definition set_DecayPolicy (v : D) o : t U D :=
  mk (stepSize o) (batchSize o) (maxIterations o) (tolerance o) (shuffle o)
     (updatePolicy o) v (resetPolicy o) (exactObjective o).

Definition ResetPolicy o := resetPolicy o.
Definition set_ResetPolicy (v : bool) o : t U D :=
  mk (stepSize o) (batchSize o) (maxIterations o) (tolerance o) (shuffle o)
     (updatePolicy o) (decayPolicy o) v (exactObjective o).

Definition ExactObjective o := exactObjective o.
Definition set_ExactObjective (v : bool) o : t U D :=
  mk (stepSize o) (batchSize o) (maxIterations o) (tolerance o) (shuffle o)
     (updatePolicy o) (decayPolicy o) (resetPolicy o) v.
End Accessors.

(** *** The driver's run *)

(** The definitions of this section are modelled from the spec:
    [SGD::Optimize] (sgd/sgd_impl.hpp is not among the sources) is the
    iteration loop of section 4.1 with the callback dispatch of section 4.4
    and the error taxonomy of section 7.  Each definition quotes the sentence
    it follows. *)
Section Driver.
Context {U D F MatType GradType CB : Type}.
Context {A : ArmaType MatType}.
Context {FT : SeparableFunctionType F MatType GradType}.
Context {UP : UpdatePolicyType U MatType GradType}.
Context {DP : DecayPolicyType D MatType GradType}.
Context {CT : CallbackType CB MatType GradType}.

(** Modelled from the spec: "Fired synchronously, in registration order ...
    Any hook may signal stop requested": one dispatch point runs the hook of every callback,
    first registered first, and reports whether any of them asked to stop. *)
Fixpoint dispatch (hook : CB -> CB * bool) (callbacks : list CB) : list CB * bool :=
  match callbacks with
  | [] => ([], false)
  | c :: rest =>
      let (c', stop) := hook c in
      let (rest', stop') := dispatch hook rest in
      (c' :: rest', stop || stop')
  end.

(** Modelled from the spec: "Process the dataset in consecutive batches of
    batchSize (last batch may be smaller)": the batches of one epoch from
    [start] on, as (start, size) pairs; [n] bounds their number. *)
Fixpoint batches_from (n : nat) (batchSize numFunctions start : size_t)
  : list (size_t * size_t) :=
  match n with
  | O => []
  | S n' =>
      if numFunctions <=? start then []
      else
        let size := N.min batchSize (numFunctions - start) in
        (start, size) :: batches_from n' batchSize numFunctions (start + size)
  end.

(** Modelled from the spec: the batches of a whole epoch. *)
Definition epoch_batches (batchSize numFunctions : size_t) : list (size_t * size_t) :=
  batches_from (N.to_nat numFunctions) batchSize numFunctions 0.

(** The sample indices [start .. start + size - 1] of a batch. *)
Definition N_range (start size : size_t) : list size_t :=
  map N.of_nat (seq (N.to_nat start) (N.to_nat size)).

Definition indices (batch : size_t * size_t) : list size_t :=
  N_range (fst batch) (snd batch).

(** The number of points in a list of processed batches. *)
Definition processed (trace : list (size_t * size_t)) : size_t :=
  fold_right (fun b acc => snd b + acc) 0 trace.

(** Batches that follow one another from [start] up to [stop]. *)
Fixpoint contiguous (start : size_t) (batches : list (size_t * size_t))
    (stop : size_t) : Prop :=
  match batches with
  | [] => start = stop
  | b :: rest => fst b = start /\ contiguous (start + snd b) rest stop
  end.

(** Every batch has [batchSize] samples, except that the last one may have
    fewer (and has at least one). *)
Fixpoint full_but_last (batchSize : size_t) (batches : list (size_t * size_t)) : Prop :=
  match batches with
  | [] => True
  | [b] => 1 <= snd b <= batchSize
  | b :: rest => snd b = batchSize /\ full_but_last batchSize rest
  end.

(** Modelled from the spec: the state of a run.  [r_points] counts processed points ("one iteration
    equals one point"), [r_position] is the place in the current epoch,
    [r_lossSum] and [r_batches] carry the running average of the epoch's
    per-batch losses, [r_objective] is the objective of the last finished
    epoch, [r_stop] is the stop flag, and [r_trace] lists the batches
    processed so far, latest first. *)
Record Run : Type := mkRun {
  r_iterate : MatType;
  r_function : F;
  r_callbacks : list CB;
  r_update : U;
  r_decay : D;
  r_stepSize : double;
  r_points : size_t;
  r_position : size_t;
  r_epoch : size_t;
  r_lossSum : elem_type;
  r_batches : size_t;
  r_objective : option elem_type;
  r_stop : bool;
  r_trace : list (size_t * size_t)
}.

(** Modelled from the spec: a dispatch point: the hooks run, and "the
    driver checks this flag after each dispatch point". *)
Definition notify (hook : CB -> CB * bool) (r : Run) : Run :=
  let (callbacks, stop) := dispatch hook (r_callbacks r) in
  mkRun (r_iterate r) (r_function r) callbacks (r_update r) (r_decay r)
        (r_stepSize r) (r_points r) (r_position r) (r_epoch r) (r_lossSum r)
        (r_batches r) (r_objective r) (r_stop r || stop) (r_trace r).

Section Loop.
Variable o : t U D.
Variable numFunctions : size_t.

(** Modelled from the spec: "maxIterations (0 = unbounded ...)"; padam.hpp
    documents the limit as "the maximum number of points that are
    processed" and 0 as "no limit". *)
Definition exhausted (r : Run) : bool :=
  negb (maxIterations o =? 0) && (maxIterations o <=? r_points r).

(** Modelled from the spec: "terminates the run early": no further step
    once the flag is up or the iterations are used up. *)
Definition halted (r : Run) : bool := r_stop r || exhausted r.

(** Modelled from the spec: "up to maxIterations", counted in points (see
    [exhausted]): a batch never takes the run past the limit. *)
Definition clamp (r : Run) (size : size_t) : size_t :=
  if maxIterations o =? 0 then size
  else N.min size (maxIterations o - r_points r).

(** Modelled from the spec: "For each batch: invoke the objective's
    batch-gradient, fire the gradient
    computed callback, delegate the actual parameter mutation to the Update
    Policy (passing the current iterate, the gradient, and the current
    effective step size), then apply the Decay Policy to adjust the step size
    for the next batch", between the step-start and step-end hooks. *)
Definition step (start size : size_t) (r : Run) : Run :=
  let size := clamp r size in
  let r1 := notify (fun c => BeginStep c (r_iterate r)) r in
  let loss := Objective.Evaluate (r_function r1) (r_iterate r1) start size in
  let gradient := Objective.Gradient (r_function r1) (r_iterate r1) start size in
  let r2 := notify (fun c => GradientComputed c (r_iterate r1) gradient) r1 in
  let (u, x) := Update (r_update r2) (r_iterate r2) (r_stepSize r2) gradient in
  let (d, s) := DecayUpdate (r_decay r2) x (r_stepSize r2) gradient in
  notify (fun c => EndStep c x)
    (mkRun x (r_function r2) (r_callbacks r2) u d s
           (r_points r2 + size) (start + size) (r_epoch r2)
           (elem_add (r_lossSum r2) loss) (r_batches r2 + 1)
           (r_objective r2) (r_stop r2) ((start, size) :: r_trace r2)).

(** The points counter and the trace agree, and the counter stays within a
    positive iteration limit. *)
Definition accounted (r : Run) : Prop :=
  processed (r_trace r) = r_points r
  /\ (0 < maxIterations o -> r_points r <= maxIterations o).

(** The gradient and the policy update of one batch, as [step] computes
    them. *)
Definition batch_gradient (start size : size_t) (r : Run) : GradType :=
  Objective.Gradient (r_function r) (r_iterate r) start (clamp r size).

Definition batch_update (start size : size_t) (r : Run) : U * MatType :=
  Update (r_update r) (r_iterate r) (r_stepSize r)
         (batch_gradient start size r).

(** Modelled from the spec: the batches of an epoch in order, each one only
    while the run is not halted. *)
Fixpoint run_batches (batches : list (size_t * size_t)) (r : Run) : Run :=
  match batches with
  | [] => r
  | (start, size) :: rest =>
      if halted r then r else run_batches rest (step start size r)
  end.

(** Modelled from the spec: "identity order, or a shuffled permutation
    regenerated at the start of every epoch when shuffle is enabled", then
    the epoch-start hook. *)
Definition epoch_begin (r : Run) : Run :=
  let f := if shuffle o then Objective.Shuffle (r_function r) else r_function r in
  notify (fun c => BeginEpoch c (r_iterate r) (r_epoch r))
    (mkRun (r_iterate r) f (r_callbacks r) (r_update r) (r_decay r)
           (r_stepSize r) (r_points r) 0 (r_epoch r) elem_zero 0
           (r_objective r) (r_stop r) (r_trace r)).

(** Modelled from the spec: "a full re-evaluation pass" over the dataset,
    batch by batch. *)
Definition full_objective (f : F) (x : MatType) : elem_type :=
  fold_left (fun acc b => elem_add acc (Objective.Evaluate f x (fst b) (snd b)))
            (epoch_batches (batchSize o) numFunctions) elem_zero.

(** Modelled from the spec: "if exactObjective is false, use a running
    average of per-batch losses from the last epoch as a cheap estimate
    instead of a full re-evaluation pass". *)
Definition epoch_objective (r : Run) : elem_type :=
  if exactObjective o then full_objective (r_function r) (r_iterate r)
  else elem_mean (r_lossSum r) (r_batches r).

(** Modelled from the spec: "stop if |currentObjective - previousObjective|
    < tolerance"; before the first epoch ends there is no previous
    objective. *)
Definition converged (r : Run) (objective : elem_type) : bool :=
  match r_objective r with
  | Some previous => elem_within objective previous (tolerance o)
  | None => false
  end.

(** Modelled from the spec: the epoch boundary: the objective, the
    tolerance check, the epoch-end hook. *)
Definition epoch_end (r : Run) : Run :=
  let objective := epoch_objective r in
  notify (fun c => EndEpoch c (r_iterate r) (r_epoch r) objective)
    (mkRun (r_iterate r) (r_function r) (r_callbacks r) (r_update r) (r_decay r)
           (r_stepSize r) (r_points r) 0 (r_epoch r + 1) elem_zero 0
           (Some objective) (r_stop r || converged r objective) (r_trace r)).

(** Modelled from the spec: one epoch; a pass cut short has no boundary. *)
Definition epoch (r : Run) : Run :=
  let r1 := epoch_begin r in
  let r2 := run_batches (epoch_batches (batchSize o) numFunctions) r1 in
  if r_position r2 =? numFunctions then epoch_end r2 else r2.

(** Modelled from the spec: "for each iteration up to maxIterations (0 =
    unbounded, must still terminate via tolerance or external
    cancellation)".  [fuel] bounds the
    number of epochs the embedding unfolds; [None] is a run that needs more. *)
Fixpoint epochs (fuel : nat) (r : Run) : option Run :=
  if halted r then Some r
  else
    match fuel with
    | O => None
    | S fuel' => epochs fuel' (epoch r)
    end.

(** Modelled from the spec: the "last-estimated" objective when the run
    stops: the running average of the pass under way, or the objective of
    the epoch just finished. *)
Definition last_estimate (r : Run) : elem_type :=
  if r_batches r =? 0 then
    match r_objective r with
    | Some objective => objective
    | None => elem_zero
    end
  else elem_mean (r_lossSum r) (r_batches r).

(** Modelled from the spec: "Returns: final (or last-estimated) objective
    value". *)
Definition final_objective (r : Run) : elem_type :=
  if exactObjective o then full_objective (r_function r) (r_iterate r)
  else last_estimate r.

End Loop.

(** Modelled from the spec: "zero-length iterate is a configuration error;
    NumFunctions() == 0 for separable functions is a configuration error";
    "zero batch/swarm size"; "detected at the start of Optimize". *)
Definition check (o : t U D) (function : F) (iterate : MatType)
  : option ConfigurationError :=
  if n_elem iterate =? 0 then Some EmptyIterate
  else if batchSize o =? 0 then Some ZeroBatchSize
  else if Objective.NumFunctions function =? 0 then Some NoFunctions
  else None.

(** Modelled from the spec: "when resetPolicy is true, the Update Policy
    and Decay Policy internal state is reinitialized to empty/zero at the
    start of every Optimize call; when false, prior state persists". *)
Definition start_update (o : t U D) (iterate : MatType) : U :=
  if resetPolicy o
  then Initialize (updatePolicy o) (n_rows iterate) (n_cols iterate)
  else updatePolicy o.

(** Modelled from the spec: the same for the decay policy. *)
Definition start_decay (o : t U D) (iterate : MatType) : D :=
  if resetPolicy o
  then DecayInitialize (decayPolicy o) (n_rows iterate) (n_cols iterate)
  else decayPolicy o.

(** Modelled from the spec: the run as it stands after the
    optimization-start hook. *)
Definition start (o : t U D) (function : F) (iterate : MatType)
    (callbacks : list CB) : Run :=
  notify (fun c => BeginOptimization c iterate)
    (mkRun iterate function callbacks (start_update o iterate)
           (start_decay o iterate) (stepSize o) 0 0 0 elem_zero 0 None false []).

(** Modelled from the spec: the run of a call that passed the configuration
    check. *)
Definition run (fuel : nat) (o : t U D) (function : F) (iterate : MatType)
    (callbacks : list CB) : option Run :=
  epochs o (Objective.NumFunctions function) fuel (start o function iterate callbacks).

(** Modelled from the spec: the optimizer after a run: its configuration as
    it was ("immutable during a run"), its policies as the run left them. *)
Definition after (o : t U D) (r : Run) : t U D :=
  mk (stepSize o) (batchSize o) (maxIterations o) (tolerance o) (shuffle o)
     (r_update r) (r_decay r) (resetPolicy o) (exactObjective o).

(** Modelled from the spec: [Optimize(function, iterate, callbacks...)]: a
    configuration error is signalled "before any mutation of iterate";
    otherwise the run, whose "iterate holds the optimized parameters". *)
Definition Optimize (fuel : nat) (o : t U D) (function : F) (iterate : MatType)
    (callbacks : list CB)
  : option (Outcome (t U D) F MatType CB elem_type) :=
  match check o function iterate with
  | Some err => Some (Threw err (mkStore o function iterate callbacks))
  | None =>
      match run fuel o function iterate callbacks with
      | None => None
      | Some r =>
          Some (Returned (final_objective o (Objective.NumFunctions function) r)
                         (mkStore (after o r) (r_function r) (r_iterate r)
                                  (r_callbacks r)))
      end
  end.

End Driver.

End SGD.


(** The signature of [SGD<U, D>::Optimize<SeparableFunctionType, MatType,
    GradType, CallbackTypes...>(function, iterate, callbacks...)]: a template
    over the four types, usable wherever they meet the interfaces above.
    The result is [None] for a call that never returns. *)
Definition OptimizeType (U D : Type) : Type :=
  forall (F MatType GradType CB : Type)
    (A : ArmaType MatType)
    (_ : SeparableFunctionType F MatType GradType)
    (_ : UpdatePolicyType U MatType GradType)
    (_ : DecayPolicyType D MatType GradType)
    (_ : CallbackType CB MatType GradType),
    SGD.t U D -> F -> MatType -> list CB ->
    option (Outcome (SGD.t U D) F MatType CB (@elem_type MatType A)).

(** The modelled driver at a given unfolding bound, as such a template. *)
Definition sgd_Optimize {U D : Type} (fuel : nat) : OptimizeType U D :=
  fun F MatType GradType CB A FT UP DP CT => SGD.Optimize fuel.

(** ** The Padam facade (padam.hpp) *)
Module Padam.

(** [private: SGD<PadamUpdate> optimizer;] *)
Record t (Moments : Type) : Type := mk {
  optimizer : SGD.t (PadamUpdate.t Moments) NoDecay.t
}.
Arguments mk {Moments}.
Arguments optimizer {Moments}.

(** The constructor, lines 70-90: the member initialiser list reorders the
    arguments for [SGD] and for [PadamUpdate]. *)
Definition Padam {Moments : Type}
    (stepSize : double) (batchSize : size_t)
    (beta1 beta2 partial epsilon : double)
    (maxIterations : size_t) (tolerance : double)
    (shuffle resetPolicy exactObjective : bool) : t Moments :=
  mk (SGD.SGD stepSize
              batchSize
              maxIterations
              tolerance
              shuffle
              (PadamUpdate.PadamUpdate epsilon beta1 beta2 partial)
              NoDecay.NoDecay
              resetPolicy
              exactObjective).

(** The default arguments of the constructor. *)
Definition Padam_default {Moments : Type} : t Moments :=
  Padam 0.001%float 32 0.9%float 0.999%float 0.25%float 1e-8%float
        100000 1e-5%float true true false.

Section Optimize.
Context {Moments : Type}.
(** [optimizer.Optimize], the member template of the owned driver. *)
Variable sgd_Optimize : OptimizeType (PadamUpdate.t Moments) NoDecay.t.
Context {F MatType CB : Type}.
Context {A : ArmaType MatType}.

(** Lines 106-117: the overload with an explicit [GradType]. *)
Definition Optimize (GradType : Type)
    {FT : SeparableFunctionType F MatType GradType}
    {R : PadamUpdate.Rule Moments MatType GradType}
    {CT : CallbackType CB MatType GradType}
    (self : t Moments) (function : F) (iterate : MatType) (callbacks : list CB)
  : option (Outcome (t Moments) F MatType CB elem_type) :=
  option_map (map_self mk)
    (sgd_Optimize F MatType GradType CB A FT PadamUpdate.policy NoDecay.decay CT
                  (optimizer self) function iterate callbacks).

(** Lines 119-130: "Forward the MatType as GradType." *)
Definition Optimize'
    {FT : SeparableFunctionType F MatType MatType}
    {R : PadamUpdate.Rule Moments MatType MatType}
    {CT : CallbackType CB MatType MatType}
    (self : t Moments) (function : F) (iterate : MatType) (callbacks : list CB)
  : option (Outcome (t Moments) F MatType CB elem_type) :=
  Optimize MatType self function iterate callbacks.

End Optimize.

(** Lines 132-187: the accessor pairs.  The [const] overload reads; the
    overload returning a reference is used to assign, [p.StepSize() = v]. *)
Section Accessors.
Context {Moments : Type}.
Implicit Type self : t Moments.

Definition StepSize self : double := SGD.StepSize (optimizer self).
Definition set_StepSize (v : double) self : t Moments :=
  mk (SGD.set_StepSize v (optimizer self)).

Definition BatchSize self : size_t := SGD.BatchSize (optimizer self).
Definition set_BatchSize (v : size_t) self : t Moments :=
  mk (SGD.set_BatchSize v (optimizer self)).

Definition Beta1 self : double :=
  PadamUpdate.Beta1 (SGD.UpdatePolicy (optimizer self)).
Definition set_Beta1 (v : double) self : t Moments :=
  mk (SGD.set_UpdatePolicy
        (PadamUpdate.set_Beta1 v (SGD.UpdatePolicy (optimizer self)))
        (optimizer self)).

Definition Beta2 self : double :=
  PadamUpdate.Beta2 (SGD.UpdatePolicy (optimizer self)).
Definition set_Beta2 (v : double) self : t Moments :=
  mk (SGD.set_UpdatePolicy
        (PadamUpdate.set_Beta2 v (SGD.UpdatePolicy (optimizer self)))
        (optimizer self)).

Definition Partial self : double :=
  PadamUpdate.Partial (SGD.UpdatePolicy (optimizer self)).
Definition set_Partial (v : double) self : t Moments :=
  mk (SGD.set_UpdatePolicy
        (PadamUpdate.set_Partial v (SGD.UpdatePolicy (optimizer self)))
        (optimizer self)).

Definition Epsilon self : double :=
  PadamUpdate.Epsilon (SGD.UpdatePolicy (optimizer self)).
Definition set_Epsilon (v : double) self : t Moments :=
  mk (SGD.set_UpdatePolicy
        (PadamUpdate.set_Epsilon v (SGD.UpdatePolicy (optimizer self)))
        (optimizer self)).

Definition MaxIterations self : size_t := SGD.MaxIterations (optimizer self).
Definition set_MaxIterations (v : size_t) self : t Moments :=
  mk (SGD.set_MaxIterations v (optimizer self)).

Definition Tolerance self : double := SGD.Tolerance (optimizer self).
Definition set_Tolerance (v : double) self : t Moments :=
  mk (SGD.set_Tolerance v (optimizer self)).

Definition Shuffle self : bool := SGD.Shuffle (optimizer self).
Definition set_Shuffle (v : bool) self : t Moments :=
  mk (SGD.set_Shuffle v (optimizer self)).

Definition ExactObjective self : bool := SGD.ExactObjective (optimizer self).
Definition set_ExactObjective (v : bool) self : t Moments :=
  mk (SGD.set_ExactObjective v (optimizer self)).

Definition ResetPolicy self : bool := SGD.ResetPolicy (optimizer self).
Definition set_ResetPolicy (v : bool) self : t Moments :=
  mk (SGD.set_ResetPolicy v (optimizer self)).

End Accessors.

(** What a caller can read off a [Padam] object: its eleven tunables, each
    through its [const] accessor. *)
Record Tunables : Type := mkTunables {
  t_stepSize : double;
  t_batchSize : size_t;
  t_beta1 : double;
  t_beta2 : double;
  t_partial : double;
  t_epsilon : double;
  t_maxIterations : size_t;
  t_tolerance : double;
  t_shuffle : bool;
  t_resetPolicy : bool;
  t_exactObjective : bool
}.

Definition tunables {Moments} (self : t Moments) : Tunables :=
  mkTunables (StepSize self) (BatchSize self) (Beta1 self) (Beta2 self)
             (Partial self) (Epsilon self) (MaxIterations self)
             (Tolerance self) (Shuffle self) (ResetPolicy self)
             (ExactObjective self).

End Padam.

(** ** A concrete backend

    Column vectors of doubles, a sphere function over them, a counting
    callback and an adaptive rule: an instance of every interface above, on
    which the definitions run. *)
Module Demo.

Local Open Scope float_scope.

Definition vec : Type := list float.

(** A count as a double. *)
Fixpoint float_of_positive (p : positive) : float :=
  match p with
  | xH => 1
  | xO q => 2 * float_of_positive q
  | xI q => 2 * float_of_positive q + 1
  end.

Definition float_of_N (n : N) : float :=
  match n with
  | N0 => 0
  | Npos p => float_of_positive p
  end.

#[global] Instance arma : ArmaType vec := {
  elem_type := float;
  n_rows x := N.of_nat (length x);
  n_cols _ := 1%N;
  elem_zero := 0;
  elem_add := PrimFloat.add;
  elem_mean s k := s / float_of_N k;
  elem_within a b tol := PrimFloat.ltb (abs (a - b)) tol
}.

(** The sphere function [f(x) = sum_j x_j^2], one term per coordinate;
    [order] is the visiting order of the terms. *)
Record sphere : Type := mkSphere { order : list nat }.

Definition SphereFunction (n : nat) : sphere := mkSphere (seq 0 n).

Definition coordinate (x : vec) (j : nat) : float := nth j x 0.

(** The terms at places [start .. start + batch - 1] of the visiting order. *)
Definition visited (f : sphere) (start batch : N) : list nat :=
  firstn (N.to_nat batch) (skipn (N.to_nat start) (order f)).

Definition sphere_evaluate (f : sphere) (x : vec) (start batch : N) : float :=
  fold_left (fun acc j => acc + coordinate x j * coordinate x j)
            (visited f start batch) 0.

Definition sphere_gradient (f : sphere) (x : vec) (start batch : N) : vec :=
  map (fun j => if existsb (Nat.eqb j) (visited f start batch)
                then 2 * coordinate x j else 0)
      (seq 0 (length x)).

#[global] Instance sphere_function : SeparableFunctionType sphere vec vec := {
  NumFunctions f := N.of_nat (length (order f));
  Shuffle f := mkSphere (rev (order f));
  Evaluate := sphere_evaluate;
  Gradient := sphere_gradient
}.

(** First and second moment estimates, per coordinate. *)
Definition moments : Type := (list float * list float)%type.

Fixpoint zip3 (f : float -> float -> float -> float) (a b c : list float) : list float :=
  match a, b, c with
  | x :: a', y :: b', z :: c' => f x y z :: zip3 f a' b' c'
  | _, _, _ => []
  end.

Fixpoint zip2 (f : float -> float -> float) (a b : list float) : list float :=
  match a, b with
  | x :: a', y :: b' => f x y :: zip2 f a' b'
  | _, _ => []
  end.

(** Exponential moving averages with rates [beta1] and [beta2], and a step
    along the first moment divided by the fourth root of the second moment
    plus [epsilon] (the rule at [partial = 1/4]; the backend has no general
    power, so [partial] is not consulted). *)
#[global] Instance adaptive_rule : PadamUpdate.Rule moments vec vec := {
  zeros rows cols := (repeat 0 (N.to_nat (rows * cols)), repeat 0 (N.to_nat (rows * cols)));
  rule epsilon beta1 beta2 partial mv x stepSize g :=
    let m := zip2 (fun m g => beta1 * m + (1 - beta1) * g) (fst mv) g in
    let v := zip2 (fun v g => beta2 * v + (1 - beta2) * (g * g)) (snd mv) g in
    ((m, v), zip3 (fun x m v => x - stepSize * m / (sqrt (sqrt v) + epsilon)) x m v)
}.

(** A callback that counts finished steps and asks to stop at its limit. *)
Record counter : Type := mkCounter { limit : N; seen : N }.

Definition count_step (c : counter) : counter * bool :=
  (mkCounter (limit c) (seen c + 1)%N, (limit c <=? seen c + 1)%N).

#[global] Instance counter_callback : CallbackType counter vec vec := {
  BeginOptimization c _ := (c, false);
  BeginEpoch c _ _ := (c, false);
  EndEpoch c _ _ _ := (c, false);
  BeginStep c _ := (c, false);
  GradientComputed c _ _ := (c, false);
  EndStep c _ := count_step c
}.

(** Two Padam objects and a starting point for the runs below. *)
Definition small : Padam.t moments :=
  Padam.Padam 0.5 2%N 0.9 0.999 0.25 1e-8 7%N 1e-5 false true false.

Definition unbounded : Padam.t moments :=
  Padam.Padam 0.5 2%N 0.9 0.999 0.25 1e-8 0%N 0 false true false.

Definition x0 : vec := [1; -2; 3; 0.5].

End Demo.

(** What the caller receives: the returned value or the signalled failure. *)
Definition outcome_value {Self F MatType CB E}
    (o : Outcome Self F MatType CB E) : E + ConfigurationError :=
  match o with Returned v _ => inl v | Threw e _ => inr e end.

Definition outcome_iterate {Self F MatType CB E}
    (o : Outcome Self F MatType CB E) : MatType :=
  st_iterate (outcome_store o).

Definition outcome_self {Self F MatType CB E}
    (o : Outcome Self F MatType CB E) : Self :=
  st_self (outcome_store o).


(** ** The tunables of the facade, as an index

    A name for each accessor pair of padam.hpp (lines 132-187), so that
    statements about all pairs can be made once. *)
Module Tunable.

Inductive t : Type :=
| StepSize | BatchSize | Beta1 | Beta2 | Partial | Epsilon
| MaxIterations | Tolerance | Shuffle | ExactObjective | ResetPolicy.

(** The type each accessor returns. *)
Definition type (a : t) : Type :=
  match a with
  | StepSize | Beta1 | Beta2 | Partial | Epsilon | Tolerance => double
  | BatchSize | MaxIterations => size_t
  | Shuffle | ExactObjective | ResetPolicy => bool
  end.

(** The [const] overload of the pair. *)
Definition get {Moments} (a : t) : Padam.t Moments -> type a :=
  match a with
  | StepSize => Padam.StepSize
  | BatchSize => Padam.BatchSize
  | Beta1 => Padam.Beta1
  | Beta2 => Padam.Beta2
  | Partial => Padam.Partial
  | Epsilon => Padam.Epsilon
  | MaxIterations => Padam.MaxIterations
  | Tolerance => Padam.Tolerance
  | Shuffle => Padam.Shuffle
  | ExactObjective => Padam.ExactObjective
  | ResetPolicy => Padam.ResetPolicy
  end.

(** An assignment through the overload that returns a reference. *)
Definition set {Moments} (a : t) : type a -> Padam.t Moments -> Padam.t Moments :=
  match a with
  | StepSize => Padam.set_StepSize
  | BatchSize => Padam.set_BatchSize
  | Beta1 => Padam.set_Beta1
  | Beta2 => Padam.set_Beta2
  | Partial => Padam.set_Partial
  | Epsilon => Padam.set_Epsilon
  | MaxIterations => Padam.set_MaxIterations
  | Tolerance => Padam.set_Tolerance
  | Shuffle => Padam.set_Shuffle
  | ExactObjective => Padam.set_ExactObjective
  | ResetPolicy => Padam.set_ResetPolicy
  end.

(** The accumulators held by the update policy of the owned driver. *)
Definition accumulators {Moments} (p : Padam.t Moments) : option Moments :=
  PadamUpdate.moments (SGD.UpdatePolicy (Padam.optimizer p)).

(** The constructor applied to what the eleven accessors read. *)
Definition rebuild {Moments} (p : Padam.t Moments) : Padam.t Moments :=
  Padam.Padam (Padam.StepSize p) (Padam.BatchSize p) (Padam.Beta1 p)
              (Padam.Beta2 p) (Padam.Partial p) (Padam.Epsilon p)
              (Padam.MaxIterations p) (Padam.Tolerance p) (Padam.Shuffle p)
              (Padam.ResetPolicy p) (Padam.ExactObjective p).

End Tunable.

(** ** The sphere test of pso_test.cpp *)
Module PSOTest.

(** How a Catch test case ends: it runs to its end, [FAIL] stops it, a
    [REQUIRE] that does not hold stops it, or the optimizer signals a
    failure that nothing in the test catches.  [arma::vec::operator[]] does
    not check its index; reading past the end has no defined result. *)
Inductive Requirement : Type :=
| FinalValueSmall          (** [REQUIRE(finalValue <= 1e-5)], line 30 *)
| CoordinateSmall (j : nat) (** [REQUIRE(coords[j] <= 1e-3)], line 33 *).

Inductive Verdict : Type :=
| Passed
| Failed          (** [FAIL("LBest PSO optimization reported failure ...")] *)
| RequireFailed (r : Requirement)
| Uncaught (err : ConfigurationError)
| ReadPastEnd (j : nat).

(** [arma::vec] with [double] elements. *)
Definition vec : Type := list double.

(** Lines 31-33: [for (size_t j = ...; j < 4; ++j) REQUIRE(coords[j] <= 1e-3);]
    from index [j] on, with [count] indices left. *)
Fixpoint require_coordinates (coords : vec) (j count : nat) : Verdict :=
  match count with
  | O => Passed
  | S count' =>
      match nth_error coords j with
      | None => ReadPastEnd j
      | Some c =>
          if PrimFloat.leb c 1e-3%float
          then require_coordinates coords (S j) count'
          else RequireFailed (CoordinateSmall j)
      end
  end.

Section SphereTest.
(** [SphereFunction] and [LBestPSO] are declared in headers that are not
    among the sources; the test is a function of what they do. *)
Context {SphereFunctionT LBestPSOT : Type}.
(** [SphereFunction f(4);] *)
Variable SphereFunction : size_t -> SphereFunctionT.
(** [LBestPSO s;] *)
Variable LBestPSO : LBestPSOT.
(** [f.GetInitialPoint()] *)
Variable GetInitialPoint : SphereFunctionT -> vec.
(** [s.Optimize(f, coords)], without callbacks; the other tests of the file
    store its result in a [double]. *)
Variable Optimize :
  LBestPSOT -> SphereFunctionT -> vec ->
  option (Outcome LBestPSOT SphereFunctionT vec Empty_set double).
(** [f.Evaluate(coords)] *)
Variable Evaluate : SphereFunctionT -> vec -> double.

(** Lines 19-34.  [!x] on a double [x] is [x == 0.0]. *)
Definition LBestPSOSphereFunctionTest : option Verdict :=
  let f := SphereFunction 4 in
  let s := LBestPSO in
  let coords := GetInitialPoint f in
  match Optimize s f coords with
  | None => None
  | Some (Threw err _) => Some (Uncaught err)
  | Some (Returned result after) =>
      if PrimFloat.eqb result 0%float then Some Failed
      else
        let finalValue := Evaluate (st_function after) (st_iterate after) in
        if PrimFloat.leb finalValue 1e-5%float
        then Some (require_coordinates (st_iterate after) 0 4)
        else Some (RequireFailed FinalValueSmall)
  end.

End SphereTest.

End PSOTest.

(** ** Sessions: assignments and calls in sequence

    What a caller does with an optimizer over time: it assigns tunables
    through the accessors and calls [Optimize], each on the object the
    previous operation left.  The same session is written once against the
    facade and once against the driver the facade owns. *)
Module Session.

Section Session.
Context {Moments F MatType GradType CB : Type}.
Context {A : ArmaType MatType}.
Context {FT : SeparableFunctionType F MatType GradType}.
Context {R : PadamUpdate.Rule Moments MatType GradType}.
Context {CT : CallbackType CB MatType GradType}.
(** [optimizer.Optimize], as in [Padam.Optimize]. *)
Variable sgd_Optimize : OptimizeType (PadamUpdate.t Moments) NoDecay.t.

Inductive Operation : Type :=
| Assign (a : Tunable.t) (v : Tunable.type a)
| Call (function : F) (iterate : MatType) (callbacks : list CB).

(** What the caller sees of one call: the value or the failure, and the
    function, the iterate and the callbacks after it. *)
Definition Observation : Type :=
  ((elem_type + ConfigurationError) * F * MatType * list CB)%type.

Definition observe {Self} (out : Outcome Self F MatType CB elem_type) : Observation :=
  (outcome_value out, st_function (outcome_store out), outcome_iterate out,
   st_callbacks (outcome_store out)).

(** What each accessor of padam.hpp does to the owned driver: lines 135, 140,
    165, 170, 175, 180 and 187 assign a member of the driver, lines 145,
    150, 155 and 160 a member of its update policy. *)
Definition assign_driver (a : Tunable.t)
  : Tunable.type a -> SGD.t (PadamUpdate.t Moments) NoDecay.t ->
    SGD.t (PadamUpdate.t Moments) NoDecay.t :=
  match a with
  | Tunable.StepSize => SGD.set_StepSize
  | Tunable.BatchSize => SGD.set_BatchSize
  | Tunable.Beta1 =>
      fun v o => SGD.set_UpdatePolicy (PadamUpdate.set_Beta1 v (SGD.UpdatePolicy o)) o
  | Tunable.Beta2 =>
      fun v o => SGD.set_UpdatePolicy (PadamUpdate.set_Beta2 v (SGD.UpdatePolicy o)) o
  | Tunable.Partial =>
      fun v o => SGD.set_UpdatePolicy (PadamUpdate.set_Partial v (SGD.UpdatePolicy o)) o
  | Tunable.Epsilon =>
      fun v o => SGD.set_UpdatePolicy (PadamUpdate.set_Epsilon v (SGD.UpdatePolicy o)) o
  | Tunable.MaxIterations => SGD.set_MaxIterations
  | Tunable.Tolerance => SGD.set_Tolerance
  | Tunable.Shuffle => SGD.set_Shuffle
  | Tunable.ExactObjective => SGD.set_ExactObjective
  | Tunable.ResetPolicy => SGD.set_ResetPolicy
  end.

(** A session on a Padam object: the observations of its calls, in order,
    and the object at the end; [None] when a call never returns. *)
Fixpoint on_facade (p : Padam.t Moments) (ops : list Operation)
  : option (list Observation * Padam.t Moments) :=
  match ops with
  | [] => Some ([], p)
  | Assign a v :: rest => on_facade (Tunable.set a v p) rest
  | Call function iterate callbacks :: rest =>
      match Padam.Optimize sgd_Optimize GradType p function iterate callbacks with
      | None => None
      | Some out =>
          match on_facade (outcome_self out) rest with
          | None => None
          | Some (seen, q) => Some (observe out :: seen, q)
          end
      end
  end.

(** The same session on a driver. *)
Fixpoint on_driver (o : SGD.t (PadamUpdate.t Moments) NoDecay.t)
    (ops : list Operation)
  : option (list Observation * SGD.t (PadamUpdate.t Moments) NoDecay.t) :=
  match ops with
  | [] => Some ([], o)
  | Assign a v :: rest => on_driver (assign_driver a v o) rest
  | Call function iterate callbacks :: rest =>
      match sgd_Optimize F MatType GradType CB A FT PadamUpdate.policy
                         NoDecay.decay CT o function iterate callbacks with
      | None => None
      | Some out =>
          match on_driver (outcome_self out) rest with
          | None => None
          | Some (seen, q) => Some (observe out :: seen, q)
          end
      end
  end.

End Session.

End Session.

(** ** A run, told by its batches

    The loop of the driver decides how far a run goes: the iteration
    limit, the tolerance check and the callbacks.  What the run has computed
    when it stops is a matter of the batches it went through alone, and can be
    said without the loop: the definitions below follow the batches one after
    the other.  The theorems compare the driver's run with them. *)
Module Reference.

Section Replay.
Context {U D F MatType GradType : Type}.
Context {A : ArmaType MatType}.
Context {FT : SeparableFunctionType F MatType GradType}.
Context {UP : UpdatePolicyType U MatType GradType}.
Context {DP : DecayPolicyType D MatType GradType}.

(** What a batch works on and leaves to the next one: the function with its
    visiting order, the iterate, the two policies, the effective step size,
    and the sum and number of the per-batch losses of the pass under way. *)
Record State : Type := mkState {
  s_function : F;
  s_iterate : MatType;
  s_update : U;
  s_decay : D;
  s_stepSize : double;
  s_lossSum : elem_type;
  s_batches : size_t
}.

(** Modelled from the spec: "when resetPolicy is true, the Update Policy
    and Decay Policy internal state is reinitialized to empty/zero at the
    start of every Optimize call; when false, prior state persists": where a
    call starts. *)
Definition initial (o : SGD.t U D) (function : F) (iterate : MatType) : State :=
  mkState function iterate
    (if SGD.resetPolicy o
     then Initialize (SGD.updatePolicy o) (n_rows iterate) (n_cols iterate)
     else SGD.updatePolicy o)
    (if SGD.resetPolicy o
     then DecayInitialize (SGD.decayPolicy o) (n_rows iterate) (n_cols iterate)
     else SGD.decayPolicy o)
    (SGD.stepSize o) elem_zero 0.

(** Modelled from the spec: "For each batch: invoke the objective's
    batch-gradient, ... delegate the actual parameter mutation to the Update
    Policy (passing the current iterate, the gradient, and the current
    effective step size), then apply the Decay Policy to adjust the step size
    for the next batch".  The batch that starts at sample 0 opens a pass: the
    visiting order is regenerated before it "when shuffle is enabled", and
    the "running average of per-batch losses" starts afresh. *)
Definition advance (shuffle : bool) (st : State) (batch : size_t * size_t) : State :=
  let first := fst batch =? 0 in
  let f := if shuffle && first then Objective.Shuffle (s_function st)
           else s_function st in
  let loss := Objective.Evaluate f (s_iterate st) (fst batch) (snd batch) in
  let gradient := Objective.Gradient f (s_iterate st) (fst batch) (snd batch) in
  let ux := Update (s_update st) (s_iterate st) (s_stepSize st) gradient in
  let ds := DecayUpdate (s_decay st) (snd ux) (s_stepSize st) gradient in
  mkState f (snd ux) (fst ux) (fst ds) (snd ds)
          (elem_add (if first then elem_zero else s_lossSum st) loss)
          ((if first then 0 else s_batches st) + 1).

(** The batches of a run, first processed first. *)
Definition replay (shuffle : bool) (st : State) (trace : list (size_t * size_t))
  : State :=
  fold_left (advance shuffle) trace st.

(** Modelled from the spec: "a running average of per-batch losses from the
    last epoch as a cheap estimate": the average over the last pass, whole
    or not; a run that processed nothing has nothing to average. *)
Definition estimate (st : State) : elem_type :=
  if s_batches st =? 0 then elem_zero
  else elem_mean (s_lossSum st) (s_batches st).

(** Modelled from the spec: "a full re-evaluation pass": the losses of the
    batches of one pass at one iterate, added up. *)
Definition exact (function : F) (iterate : MatType)
    (batches : list (size_t * size_t)) : elem_type :=
  fold_left (fun acc b =>
               elem_add acc (Objective.Evaluate function iterate (fst b) (snd b)))
            batches elem_zero.

(** Modelled from the spec: "Returns: final (or last-estimated) objective
    value". *)
Definition value (o : SGD.t U D) (function : F) (st : State)
    (batches : list (size_t * size_t)) : elem_type :=
  if SGD.exactObjective o then exact function (s_iterate st) batches
  else estimate st.

Section Agreement.
Context {CB : Type}.
Context {CT : CallbackType CB MatType GradType}.
Variable o : SGD.t U D.
Variable init : State.

(** The function as the next pass will visit it. *)
Definition pending (function : F) : F :=
  if SGD.shuffle o then Objective.Shuffle function else function.

(** The state of the driver's run holds what its batches make of [init]. *)
Definition agrees (r : @SGD.Run U D F MatType CB A) : Prop :=
  let st := replay (SGD.shuffle o) init (rev (SGD.r_trace r)) in
  SGD.r_iterate r = s_iterate st
  /\ SGD.r_update r = s_update st
  /\ SGD.r_decay r = s_decay st
  /\ SGD.r_stepSize r = s_stepSize st.

(** Inside a pass: before its first batch the function is reordered and the
    running average is empty; after it, function and average are those of
    the batches. *)
Definition in_pass (r : @SGD.Run U D F MatType CB A) : Prop :=
  let st := replay (SGD.shuffle o) init (rev (SGD.r_trace r)) in
  agrees r
  /\ ((SGD.r_position r = 0
       /\ SGD.r_function r = pending (s_function st)
       /\ SGD.r_batches r = 0
       /\ SGD.r_lossSum r = elem_zero
       /\ (SGD.exactObjective o = false -> SGD.last_estimate r = estimate st))
      \/ (SGD.r_position r <> 0
          /\ SGD.r_function r = s_function st
          /\ SGD.r_batches r = s_batches st
          /\ s_batches st <> 0
          /\ SGD.r_lossSum r = s_lossSum st)).

(** Between two passes, and where the run stops. *)
Definition between_passes (r : @SGD.Run U D F MatType CB A) : Prop :=
  let st := replay (SGD.shuffle o) init (rev (SGD.r_trace r)) in
  agrees r
  /\ (SGD.exactObjective o = false -> SGD.last_estimate r = estimate st)
  /\ (SGD.halted o r = false ->
      SGD.r_function r = s_function st /\ SGD.r_batches r = 0).

(** Callbacks that never ask to stop: those of a kind [Q] that no hook
    leaves and at which every hook answers no. *)
Definition never_asks (Q : CB -> Prop) : Prop :=
  forall c, Q c ->
    (forall x, Q (fst (BeginOptimization c x))
               /\ snd (BeginOptimization c x) = false)
    /\ (forall x e, Q (fst (BeginEpoch c x e)) /\ snd (BeginEpoch c x e) = false)
    /\ (forall x e v, Q (fst (EndEpoch c x e v))
                      /\ snd (EndEpoch c x e v) = false)
    /\ (forall x, Q (fst (BeginStep c x)) /\ snd (BeginStep c x) = false)
    /\ (forall x g, Q (fst (GradientComputed c x g))
                    /\ snd (GradientComputed c x g) = false)
    /\ (forall x, Q (fst (EndStep c x)) /\ snd (EndStep c x) = false).

(** No request is pending and the registered callbacks are of such a kind. *)
Definition quiet (Q : CB -> Prop) (r : @SGD.Run U D F MatType CB A) : Prop :=
  SGD.r_stop r = false /\ Forall Q (SGD.r_callbacks r).

End Agreement.
End Replay.

End Reference.
(** * The facade *)

(** C1.  Constructing a Padam optimizer builds exactly the SGD driver given
    the step size, batch size, iteration limit, tolerance and shuffle flag,
    the update policy [PadamUpdate(epsilon, beta1, beta2, partial)], the
    decay policy [NoDecay] and the two remaining flags, so that each accessor
    of the new object reads the constructor argument of its name; and
    whatever the driver's [Optimize] is, [Padam::Optimize] returns (or
    signals) exactly what the driver's [Optimize] does on the owned driver
    and the same arguments, leaves the function, the iterate and the
    callbacks as the driver left them, and keeps the driver as the call left
    it. *)
Theorem Padam_is_pure_composition :
  (forall (Moments : Type) stepSize batchSize beta1 beta2 partial epsilon
          maxIterations tolerance shuffle resetPolicy exactObjective,
      Padam.optimizer
        (@Padam.Padam Moments stepSize batchSize beta1 beta2 partial epsilon
                      maxIterations tolerance shuffle resetPolicy exactObjective)
      = SGD.SGD stepSize batchSize maxIterations tolerance shuffle
                (PadamUpdate.PadamUpdate epsilon beta1 beta2 partial)
                NoDecay.NoDecay resetPolicy exactObjective)
  /\
  (forall (Moments : Type) stepSize batchSize beta1 beta2 partial epsilon
          maxIterations tolerance shuffle resetPolicy exactObjective,
      Padam.tunables
        (@Padam.Padam Moments stepSize batchSize beta1 beta2 partial epsilon
                      maxIterations tolerance shuffle resetPolicy exactObjective)
      = Padam.mkTunables stepSize batchSize beta1 beta2 partial epsilon
                         maxIterations tolerance shuffle resetPolicy exactObjective)
  /\
  (forall (Moments : Type) (sgd : OptimizeType (PadamUpdate.t Moments) NoDecay.t)
          (F MatType CB : Type) (A : ArmaType MatType) (GradType : Type)
          (FT : SeparableFunctionType F MatType GradType)
          (R : PadamUpdate.Rule Moments MatType GradType)
          (CT : CallbackType CB MatType GradType)
          (self : Padam.t Moments) (function : F) (iterate : MatType)
          (callbacks : list CB),
      let facade := Padam.Optimize sgd GradType self function iterate callbacks in
      let driver :=
        sgd F MatType GradType CB A FT PadamUpdate.policy NoDecay.decay CT
            (Padam.optimizer self) function iterate callbacks in
      option_map outcome_value facade = option_map outcome_value driver
      /\ option_map outcome_iterate facade = option_map outcome_iterate driver
      /\ option_map (fun o => st_function (outcome_store o)) facade
         = option_map (fun o => st_function (outcome_store o)) driver
      /\ option_map (fun o => st_callbacks (outcome_store o)) facade
         = option_map (fun o => st_callbacks (outcome_store o)) driver
      /\ option_map (fun o => Padam.optimizer (outcome_self o)) facade
         = option_map outcome_self driver).
Proof.
  split; [|split].
  - reflexivity.
  - reflexivity.
  - intros. subst facade driver. unfold Padam.Optimize.
    destruct (sgd F MatType GradType CB A FT _ _ CT (Padam.optimizer self)
                  function iterate callbacks) as [[v s | e s] |];
      cbn; repeat split; reflexivity.
Qed.

(** The defaults of the constructor, read back through the accessors. *)
Example Padam_default_tunables :
  Padam.tunables (@Padam.Padam_default unit)
  = Padam.mkTunables 0.001%float 32 0.9%float 0.999%float 0.25%float 1e-8%float
                     100000 1e-5%float true true false.
Proof. reflexivity. Qed.

(** C10.  The overload of [Padam::Optimize] that omits the gradient matrix
    type is the explicit overload at [GradType = MatType]: the same outcome,
    hence the same returned value and the same mutation of the iterate. *)
Theorem Optimize_overloads_agree :
  forall (Moments : Type) (sgd : OptimizeType (PadamUpdate.t Moments) NoDecay.t)
         (F MatType CB : Type) (A : ArmaType MatType)
         (FT : SeparableFunctionType F MatType MatType)
         (R : PadamUpdate.Rule Moments MatType MatType)
         (CT : CallbackType CB MatType MatType)
         (self : Padam.t Moments) (function : F) (iterate : MatType)
         (callbacks : list CB),
    Padam.Optimize' sgd self function iterate callbacks
    = Padam.Optimize sgd MatType self function iterate callbacks
    /\ option_map outcome_value (Padam.Optimize' sgd self function iterate callbacks)
       = option_map outcome_value
           (sgd F MatType MatType CB A FT PadamUpdate.policy NoDecay.decay CT
                (Padam.optimizer self) function iterate callbacks)
    /\ option_map outcome_iterate (Padam.Optimize' sgd self function iterate callbacks)
       = option_map outcome_iterate
           (sgd F MatType MatType CB A FT PadamUpdate.policy NoDecay.decay CT
                (Padam.optimizer self) function iterate callbacks).
Proof.
  intros. split; [reflexivity|].
  unfold Padam.Optimize', Padam.Optimize.
  destruct (sgd F MatType MatType CB A FT _ _ CT (Padam.optimizer self)
                function iterate callbacks) as [[v s | e s] |];
    cbn; split; reflexivity.
Qed.

(** * The driver: how a run moves *)
Section RunFacts.
Context {U D F MatType GradType CB : Type}.
Context {A : ArmaType MatType}.
Context {FT : SeparableFunctionType F MatType GradType}.
Context {UP : UpdatePolicyType U MatType GradType}.
Context {DP : DecayPolicyType D MatType GradType}.
Context {CT : CallbackType CB MatType GradType}.
Variable o : SGD.t U D.
Variable numFunctions : size_t.

Abbreviation Run := (@SGD.Run U D F MatType CB A).

(** A dispatch point touches the callbacks and the stop flag only, and never
    lowers the flag. *)
Lemma notify_fields (hook : CB -> CB * bool) (r : Run) :
  SGD.r_iterate (SGD.notify hook r) = SGD.r_iterate r
  /\ SGD.r_function (SGD.notify hook r) = SGD.r_function r
  /\ SGD.r_update (SGD.notify hook r) = SGD.r_update r
  /\ SGD.r_decay (SGD.notify hook r) = SGD.r_decay r
  /\ SGD.r_stepSize (SGD.notify hook r) = SGD.r_stepSize r
  /\ SGD.r_points (SGD.notify hook r) = SGD.r_points r
  /\ SGD.r_position (SGD.notify hook r) = SGD.r_position r
  /\ SGD.r_trace (SGD.notify hook r) = SGD.r_trace r
  /\ SGD.r_stop (SGD.notify hook r)
     = SGD.r_stop r || snd (SGD.dispatch hook (SGD.r_callbacks r)).
Proof.
  unfold SGD.notify. destruct (SGD.dispatch hook (SGD.r_callbacks r)).
  cbn. repeat split; reflexivity.
Qed.

Lemma notify_objective (hook : CB -> CB * bool) (r : Run) :
  SGD.r_lossSum (SGD.notify hook r) = SGD.r_lossSum r
  /\ SGD.r_batches (SGD.notify hook r) = SGD.r_batches r
  /\ SGD.r_objective (SGD.notify hook r) = SGD.r_objective r
  /\ SGD.r_epoch (SGD.notify hook r) = SGD.r_epoch r.
Proof.
  unfold SGD.notify. destruct (SGD.dispatch hook (SGD.r_callbacks r)).
  cbn. repeat split; reflexivity.
Qed.

(** With no callback registered nothing asks to stop. *)
Lemma notify_nil (hook : CB -> CB * bool) (r : Run) :
  SGD.r_callbacks r = [] -> SGD.notify hook r = r.
Proof.
  intros E. unfold SGD.notify. rewrite E. cbn. rewrite orb_false_r.
  destruct r; cbn in *; subst; reflexivity.
Qed.

(** A halted run is where the loop stops, whatever is left to unfold. *)
Lemma epochs_halted fuel (r : Run) :
  SGD.halted o r = true -> SGD.epochs o numFunctions fuel r = Some r.
Proof. intros H. destruct fuel; cbn; rewrite H; reflexivity. Qed.

Lemma run_batches_halted batches (r : Run) :
  SGD.halted o r = true -> SGD.run_batches o batches r = r.
Proof. intros H. destruct batches as [|[? ?] ?]; cbn; [|rewrite H]; reflexivity. Qed.

(** The loop only ever stops in a halted state. *)
Lemma epochs_stops_halted fuel : forall (r r' : Run),
  SGD.epochs o numFunctions fuel r = Some r' -> SGD.halted o r' = true.
Proof.
  induction fuel as [|fuel IH]; intros r r'; cbn;
    destruct (SGD.halted o r) eqn:H; intros E; try discriminate.
  - now inversion E; subst.
  - now inversion E; subst.
  - eauto.
Qed.

(** More fuel never changes the result of a run that already stopped. *)
Lemma epochs_more_fuel fuel : forall k (r r' : Run),
  SGD.epochs o numFunctions fuel r = Some r' ->
  SGD.epochs o numFunctions (fuel + k) r = Some r'.
Proof.
  induction fuel as [|fuel IH]; intros k r r'; cbn;
    destruct (SGD.halted o r) eqn:H; intros E; try discriminate.
  - inversion E; subst. now apply epochs_halted.
  - exact E.
  - now apply IH.
Qed.

(** Invariants of a run: what each batch and each epoch boundary keeps, the
    whole loop keeps. *)
Section Invariant.
Variable P : Run -> Prop.
Hypothesis P_step : forall start size r, P r -> P (SGD.step o start size r).
Hypothesis P_epoch_begin : forall r, P r -> P (SGD.epoch_begin o r).
Hypothesis P_epoch_end : forall r, P r -> P (SGD.epoch_end o numFunctions r).

Lemma run_batches_invariant batches : forall r,
  P r -> P (SGD.run_batches o batches r).
Proof.
  induction batches as [|[start size] rest IH]; intros r H; cbn; auto.
  destruct (SGD.halted o r); auto.
Qed.

Lemma epoch_invariant r : P r -> P (SGD.epoch o numFunctions r).
Proof.
  intros H. unfold SGD.epoch.
  destruct (_ =? _); auto using run_batches_invariant.
Qed.

Lemma epochs_invariant fuel : forall r r',
  P r -> SGD.epochs o numFunctions fuel r = Some r' -> P r'.
Proof.
  induction fuel as [|fuel IH]; intros r r' H; cbn;
    destruct (SGD.halted o r); intros E; try discriminate.
  - now inversion E; subst.
  - now inversion E; subst.
  - eapply IH; [|exact E]. now apply epoch_invariant.
Qed.
End Invariant.

(** One batch, field by field. *)
Lemma step_fields start size (r : Run) :
  SGD.r_update (SGD.step o start size r) = fst (SGD.batch_update o start size r)
  /\ SGD.r_iterate (SGD.step o start size r) = snd (SGD.batch_update o start size r)
  /\ SGD.r_function (SGD.step o start size r) = SGD.r_function r
  /\ SGD.r_points (SGD.step o start size r) = SGD.r_points r + SGD.clamp o r size
  /\ SGD.r_position (SGD.step o start size r) = start + SGD.clamp o r size
  /\ SGD.r_trace (SGD.step o start size r)
     = (start, SGD.clamp o r size) :: SGD.r_trace r
  /\ SGD.r_objective (SGD.step o start size r) = SGD.r_objective r
  /\ SGD.r_batches (SGD.step o start size r) = SGD.r_batches r + 1.
Proof.
  unfold SGD.step, SGD.batch_update, SGD.batch_gradient.
  set (r1 := SGD.notify _ r).
  set (g := Objective.Gradient (SGD.r_function r1) _ _ _).
  set (r2 := SGD.notify _ r1).
  destruct (notify_fields (fun c => BeginStep c (SGD.r_iterate r)) r)
    as (Hi & Hf & Hu & Hd & Hs & Hp & Hq & Ht & _).
  destruct (notify_objective (fun c => BeginStep c (SGD.r_iterate r)) r)
    as (_ & Hb & Ho & _).
  fold r1 in Hi, Hf, Hu, Hd, Hs, Hp, Hq, Ht, Hb, Ho.
  destruct (notify_fields (fun c => GradientComputed c (SGD.r_iterate r1) g) r1)
    as (Hi2 & Hf2 & Hu2 & Hd2 & Hs2 & Hp2 & Hq2 & Ht2 & _).
  destruct (notify_objective (fun c => GradientComputed c (SGD.r_iterate r1) g) r1)
    as (_ & Hb2 & Ho2 & _).
  fold r2 in Hi2, Hf2, Hu2, Hd2, Hs2, Hp2, Hq2, Ht2, Hb2, Ho2.
  assert (Eg : g = Objective.Gradient (SGD.r_function r) (SGD.r_iterate r) start
                                      (SGD.clamp o r size)).
  { subst g. now rewrite Hf, Hi. }
  rewrite Hu2, Hi2, Hs2, Hu, Hi, Hs, Eg.
  destruct (Update _ _ _ _) as [u x].
  rewrite Hd2, Hd.
  destruct (DecayUpdate _ _ _ _) as [d s].
  match goal with |- context [SGD.notify ?h ?x] =>
    destruct (notify_fields h x) as (Ki & Kf & Ku & Kd & Ks & Kp & Kq & Kt & _);
    destruct (notify_objective h x) as (_ & Kb & Ko & _)
  end.
  cbn in *. rewrite Ku, Ki, Kf, Kp, Kq, Kt, Ko, Kb, Hf2, Hf, Hp2, Hp, Ht2, Ht, Ho2, Ho, Hb2, Hb.
  repeat split; reflexivity.
Qed.

End RunFacts.

(** * The Padam policy inside a run *)
Section PadamRun.
Context {Moments F MatType GradType CB : Type}.
Context {A : ArmaType MatType}.
Context {FT : SeparableFunctionType F MatType GradType}.
Context {R : PadamUpdate.Rule Moments MatType GradType}.
Context {CT : CallbackType CB MatType GradType}.

Abbreviation PRun := (@SGD.Run (PadamUpdate.t Moments) NoDecay.t F MatType CB A).

(** [Update] touches no hyper-parameter. *)
Lemma hyper_Update (u : PadamUpdate.t Moments) (x : MatType) s (g : GradType) :
  PadamUpdate.hyper (fst (Update u x s g)) = PadamUpdate.hyper u.
Proof.
  cbn. destruct (PadamUpdate.rule _ _ _ _ _ _ _ _). reflexivity.
Qed.

(** So the policy a run carries has the hyper-parameters it started with. *)
Lemma run_keeps_hyper (o : SGD.t (PadamUpdate.t Moments) NoDecay.t)
    numFunctions fuel (r r' : PRun) :
  SGD.epochs o numFunctions fuel r = Some r' ->
  PadamUpdate.hyper (SGD.r_update r') = PadamUpdate.hyper (SGD.r_update r).
Proof.
  apply (epochs_invariant o numFunctions
           (fun x => PadamUpdate.hyper (SGD.r_update x)
                     = PadamUpdate.hyper (SGD.r_update r))).
  - intros start size x H.
    destruct (step_fields o start size x) as (Hu & _).
    rewrite Hu. unfold SGD.batch_update. now rewrite hyper_Update.
  - intros x H. unfold SGD.epoch_begin.
    match goal with |- context [SGD.notify ?h ?y] =>
      destruct (notify_fields h y) as (_ & _ & Hu & _) end.
    now rewrite Hu.
  - intros x H. unfold SGD.epoch_end.
    match goal with |- context [SGD.notify ?h ?y] =>
      destruct (notify_fields h y) as (_ & _ & Hu & _) end.
    now rewrite Hu.
  - reflexivity.
Qed.

Lemma start_keeps_hyper (o : SGD.t (PadamUpdate.t Moments) NoDecay.t)
    (function : F) (iterate : MatType) (callbacks : list CB) :
  PadamUpdate.hyper (SGD.r_update (SGD.start o function iterate callbacks))
  = PadamUpdate.hyper (SGD.updatePolicy o).
Proof.
  unfold SGD.start.
  match goal with |- context [SGD.notify ?h ?y] =>
    destruct (notify_fields h y) as (_ & _ & Hu & _) end.
  rewrite Hu. cbn. unfold SGD.start_update.
  destruct (SGD.resetPolicy o); reflexivity.
Qed.

(** The tunables of the facade are the five scalars and three flags of the
    driver and the hyper-parameters of its policy. *)
Lemma tunables_after (p : Padam.t Moments) (r : PRun) :
  PadamUpdate.hyper (SGD.r_update r)
  = PadamUpdate.hyper (SGD.updatePolicy (Padam.optimizer p)) ->
  Padam.tunables (Padam.mk (SGD.after (Padam.optimizer p) r)) = Padam.tunables p.
Proof.
  unfold PadamUpdate.hyper. intros H. inversion H as [[He H1 H2 Hp]].
  unfold Padam.tunables, Padam.StepSize, Padam.BatchSize, Padam.Beta1,
    Padam.Beta2, Padam.Partial, Padam.Epsilon, Padam.MaxIterations,
    Padam.Tolerance, Padam.Shuffle, Padam.ResetPolicy, Padam.ExactObjective.
  cbn. unfold PadamUpdate.Beta1, PadamUpdate.Beta2, PadamUpdate.Partial,
    PadamUpdate.Epsilon. now rewrite He, H1, H2, Hp.
Qed.

End PadamRun.

(** C7.  Each of the eleven tunables of the facade has a get/set pair:
    reading all eleven after setting one to [v] gives [v] for that one and
    the previous value for the ten others; and a call of [Optimize] (on the
    driver modelled above), whether it returns or signals a failure, leaves
    all eleven as they were. *)
Theorem Padam_accessor_pairs :
  forall (Moments : Type) (p : Padam.t Moments),
    let T := Padam.tunables p in
    (forall v, Padam.tunables (Padam.set_StepSize v p)
      = Padam.mkTunables v (Padam.BatchSize p) (Padam.Beta1 p) (Padam.Beta2 p)
          (Padam.Partial p) (Padam.Epsilon p) (Padam.MaxIterations p)
          (Padam.Tolerance p) (Padam.Shuffle p) (Padam.ResetPolicy p)
          (Padam.ExactObjective p))
    /\ (forall v, Padam.tunables (Padam.set_BatchSize v p)
      = Padam.mkTunables (Padam.StepSize p) v (Padam.Beta1 p) (Padam.Beta2 p)
          (Padam.Partial p) (Padam.Epsilon p) (Padam.MaxIterations p)
          (Padam.Tolerance p) (Padam.Shuffle p) (Padam.ResetPolicy p)
          (Padam.ExactObjective p))
    /\ (forall v, Padam.tunables (Padam.set_Beta1 v p)
      = Padam.mkTunables (Padam.StepSize p) (Padam.BatchSize p) v (Padam.Beta2 p)
          (Padam.Partial p) (Padam.Epsilon p) (Padam.MaxIterations p)
          (Padam.Tolerance p) (Padam.Shuffle p) (Padam.ResetPolicy p)
          (Padam.ExactObjective p))
    /\ (forall v, Padam.tunables (Padam.set_Beta2 v p)
      = Padam.mkTunables (Padam.StepSize p) (Padam.BatchSize p) (Padam.Beta1 p) v
          (Padam.Partial p) (Padam.Epsilon p) (Padam.MaxIterations p)
          (Padam.Tolerance p) (Padam.Shuffle p) (Padam.ResetPolicy p)
          (Padam.ExactObjective p))
    /\ (forall v, Padam.tunables (Padam.set_Partial v p)
      = Padam.mkTunables (Padam.StepSize p) (Padam.BatchSize p) (Padam.Beta1 p)
          (Padam.Beta2 p) v (Padam.Epsilon p) (Padam.MaxIterations p)
          (Padam.Tolerance p) (Padam.Shuffle p) (Padam.ResetPolicy p)
          (Padam.ExactObjective p))
    /\ (forall v, Padam.tunables (Padam.set_Epsilon v p)
      = Padam.mkTunables (Padam.StepSize p) (Padam.BatchSize p) (Padam.Beta1 p)
          (Padam.Beta2 p) (Padam.Partial p) v (Padam.MaxIterations p)
          (Padam.Tolerance p) (Padam.Shuffle p) (Padam.ResetPolicy p)
          (Padam.ExactObjective p))
    /\ (forall v, Padam.tunables (Padam.set_MaxIterations v p)
      = Padam.mkTunables (Padam.StepSize p) (Padam.BatchSize p) (Padam.Beta1 p)
          (Padam.Beta2 p) (Padam.Partial p) (Padam.Epsilon p) v
          (Padam.Tolerance p) (Padam.Shuffle p) (Padam.ResetPolicy p)
          (Padam.ExactObjective p))
    /\ (forall v, Padam.tunables (Padam.set_Tolerance v p)
      = Padam.mkTunables (Padam.StepSize p) (Padam.BatchSize p) (Padam.Beta1 p)
          (Padam.Beta2 p) (Padam.Partial p) (Padam.Epsilon p)
          (Padam.MaxIterations p) v (Padam.Shuffle p) (Padam.ResetPolicy p)
          (Padam.ExactObjective p))
    /\ (forall v, Padam.tunables (Padam.set_Shuffle v p)
      = Padam.mkTunables (Padam.StepSize p) (Padam.BatchSize p) (Padam.Beta1 p)
          (Padam.Beta2 p) (Padam.Partial p) (Padam.Epsilon p)
          (Padam.MaxIterations p) (Padam.Tolerance p) v (Padam.ResetPolicy p)
          (Padam.ExactObjective p))
    /\ (forall v, Padam.tunables (Padam.set_ResetPolicy v p)
      = Padam.mkTunables (Padam.StepSize p) (Padam.BatchSize p) (Padam.Beta1 p)
          (Padam.Beta2 p) (Padam.Partial p) (Padam.Epsilon p)
          (Padam.MaxIterations p) (Padam.Tolerance p) (Padam.Shuffle p) v
          (Padam.ExactObjective p))
    /\ (forall v, Padam.tunables (Padam.set_ExactObjective v p)
      = Padam.mkTunables (Padam.StepSize p) (Padam.BatchSize p) (Padam.Beta1 p)
          (Padam.Beta2 p) (Padam.Partial p) (Padam.Epsilon p)
          (Padam.MaxIterations p) (Padam.Tolerance p) (Padam.Shuffle p)
          (Padam.ResetPolicy p) v)
    /\ (forall (F MatType GradType CB : Type) (A : ArmaType MatType)
               (FT : SeparableFunctionType F MatType GradType)
               (R : PadamUpdate.Rule Moments MatType GradType)
               (CT : CallbackType CB MatType GradType)
               (fuel : nat) (function : F) (iterate : MatType)
               (callbacks : list CB),
          let call :=
            Padam.Optimize (sgd_Optimize fuel) GradType p function iterate callbacks in
          option_map (fun out => Padam.tunables (outcome_self out)) call
          = option_map (fun _ => T) call).
Proof.
  intros Moments p T.
  repeat (split; [intros v; reflexivity|]).
  intros. subst call T.
  unfold Padam.Optimize, sgd_Optimize, SGD.Optimize.
  destruct (SGD.check _ _ _); [destruct p as [o]; reflexivity|].
  unfold SGD.run.
  destruct (SGD.epochs _ _ _ _) as [r|] eqn:E; [|reflexivity].
  cbn. f_equal. unfold outcome_self. cbn.
  apply tunables_after.
  rewrite (run_keeps_hyper _ _ _ _ _ E).
  apply start_keeps_hyper.
Qed.

(** * Batch partitioning *)
Section Batches.

Lemma N_range_app start a b :
  SGD.N_range start (a + b) = SGD.N_range start a ++ SGD.N_range (start + a) b.
Proof.
  unfold SGD.N_range.
  rewrite !N2Nat.inj_add, seq_app, map_app. reflexivity.
Qed.

(** From any place of the dataset, the remaining batches cover the
    remaining samples, in order. *)
Lemma batches_from_cover batchSize numFunctions :
  1 <= batchSize ->
  forall n start,
    (N.to_nat (numFunctions - start) <= n)%nat ->
    flat_map SGD.indices (SGD.batches_from n batchSize numFunctions start)
    = SGD.N_range start (numFunctions - start).
Proof.
  intros HB. induction n as [|n IH]; intros start Hn; cbn.
  - replace (numFunctions - start) with 0 by lia. reflexivity.
  - destruct (numFunctions <=? start) eqn:E.
    + apply N.leb_le in E.
      replace (numFunctions - start) with 0 by lia. reflexivity.
    + apply N.leb_gt in E. cbn.
      set (size := N.min batchSize (numFunctions - start)).
      rewrite IH by (subst size; lia).
      unfold SGD.indices. cbn.
      rewrite <- N_range_app. f_equal. subst size. lia.
Qed.

Lemma batches_from_contiguous batchSize numFunctions :
  1 <= batchSize ->
  forall n start,
    start <= numFunctions ->
    (N.to_nat (numFunctions - start) <= n)%nat ->
    SGD.contiguous start (SGD.batches_from n batchSize numFunctions start)
                   numFunctions.
Proof.
  intros HB. induction n as [|n IH]; intros start Hs Hn; cbn.
  - lia.
  - destruct (numFunctions <=? start) eqn:E.
    + apply N.leb_le in E. cbn. lia.
    + apply N.leb_gt in E. cbn. split; [reflexivity|].
      apply IH; lia.
Qed.

Lemma batches_from_sizes batchSize numFunctions :
  1 <= batchSize ->
  forall n start,
    (N.to_nat (numFunctions - start) <= n)%nat ->
    SGD.full_but_last batchSize (SGD.batches_from n batchSize numFunctions start).
Proof.
  intros HB. induction n as [|n IH]; intros start Hn; cbn; [exact I|].
  destruct (numFunctions <=? start) eqn:E; [exact I|].
  apply N.leb_gt in E.
  set (size := N.min batchSize (numFunctions - start)).
  specialize (IH (start + size)).
  destruct n as [|n'].
  - cbn. subst size. lia.
  - cbn in IH |- *.
    destruct (numFunctions <=? start + size) eqn:E2.
    + subst size. lia.
    + apply N.leb_gt in E2. split.
      * subst size. lia.
      * apply IH. subst size. lia.
Qed.

Lemma batches_from_positive batchSize numFunctions :
  1 <= batchSize ->
  forall n start,
    Forall (fun b => 1 <= snd b <= batchSize)
           (SGD.batches_from n batchSize numFunctions start).
Proof.
  intros HB. induction n as [|n IH]; intros start; cbn; [constructor|].
  destruct (numFunctions <=? start) eqn:E; [constructor|].
  apply N.leb_gt in E. constructor; [cbn; lia|apply IH].
Qed.

(** Every index below [numFunctions] occurs once in [0 .. numFunctions - 1]. *)
Lemma N_range_count numFunctions i :
  i < numFunctions ->
  count_occ N.eq_dec (SGD.N_range 0 numFunctions) i = 1%nat.
Proof.
  intros Hi. unfold SGD.N_range. cbn.
  assert (G : forall (n k : nat) (j : N),
             (k <= N.to_nat j < k + n)%nat ->
             count_occ N.eq_dec (map N.of_nat (seq k n)) j = 1%nat
             /\ forall k', (N.to_nat j < k')%nat ->
                  count_occ N.eq_dec (map N.of_nat (seq k' n)) j = 0%nat).
  { induction n as [|n IH]; intros k j Hk; [lia|]. split.
    - cbn. destruct (N.eq_dec (N.of_nat k) j) as [E|E].
      + f_equal. clear IH.
        assert (Z : forall m k', (N.to_nat j < k')%nat ->
                  count_occ N.eq_dec (map N.of_nat (seq k' m)) j = 0%nat).
        { induction m as [|m IHm]; intros k' Hk'; cbn; [reflexivity|].
          destruct (N.eq_dec (N.of_nat k') j); [lia|]. apply IHm. lia. }
        apply Z. lia.
      + apply IH. lia.
    - intros k' Hk'. clear IH Hk. revert k' Hk'.
      induction (S n) as [|m IHm]; intros k' Hk'; cbn; [reflexivity|].
      destruct (N.eq_dec (N.of_nat k') j); [lia|]. apply IHm. lia. }
  apply (G (N.to_nat numFunctions) 0%nat i). lia.
Qed.

End Batches.

(** * Epochs of a run *)
Section EpochFacts.
Context {U D F MatType GradType CB : Type}.
Context {A : ArmaType MatType}.
Context {FT : SeparableFunctionType F MatType GradType}.
Context {UP : UpdatePolicyType U MatType GradType}.
Context {DP : DecayPolicyType D MatType GradType}.
Context {CT : CallbackType CB MatType GradType}.
Variable o : SGD.t U D.
Variable numFunctions : size_t.

Abbreviation ERun := (@SGD.Run U D F MatType CB A).

Lemma clamp_le (r : ERun) size : SGD.clamp o r size <= size.
Proof. unfold SGD.clamp. destruct (_ =? _); lia. Qed.

(** A batch is cut only by the iteration limit, which is then reached. *)
Lemma clamp_short_exhausts start size (r : ERun) :
  SGD.clamp o r size < size ->
  SGD.exhausted o (SGD.step o start size r) = true.
Proof.
  intros H. unfold SGD.exhausted.
  destruct (step_fields o start size r) as (_ & _ & _ & Hp & _).
  rewrite Hp. unfold SGD.clamp in *.
  destruct (SGD.maxIterations o =? 0) eqn:E; [lia|]. cbn.
  apply N.leb_le. lia.
Qed.

Lemma contiguous_le batches : forall start stop,
  SGD.contiguous start batches stop -> start <= stop.
Proof.
  induction batches as [|b rest IH]; intros start stop; cbn.
  - lia.
  - intros [_ H]. apply IH in H. lia.
Qed.

Lemma step_epoch start size (r : ERun) :
  SGD.r_epoch (SGD.step o start size r) = SGD.r_epoch r.
Proof.
  unfold SGD.step.
  repeat match goal with
  | |- context [let (_, _) := ?e in _] => destruct e
  end.
  repeat match goal with
  | |- context [SGD.notify ?h ?x] =>
      let K := fresh in
      destruct (notify_objective h x) as (_ & _ & _ & K); rewrite K; clear K
  end.
  reflexivity.
Qed.

(** The batches of an epoch are either all processed, whole and in order, or
    the run halted on the way. *)
Lemma run_batches_trace batches : forall (r : ERun) stop,
  SGD.contiguous (SGD.r_position r) batches stop ->
  Forall (fun b => 1 <= snd b) batches ->
  let r' := SGD.run_batches o batches r in
  SGD.r_epoch r' = SGD.r_epoch r
  /\ ((SGD.r_position r' = stop
       /\ SGD.r_trace r' = rev batches ++ SGD.r_trace r)
      \/ (SGD.halted o r' = true /\ SGD.r_position r' < stop
          /\ exists done,
               SGD.r_trace r' = rev done ++ SGD.r_trace r
               /\ SGD.contiguous (SGD.r_position r) done (SGD.r_position r'))).
Proof.
  induction batches as [|[start size] rest IH]; intros r stop Hc Hpos; cbn in *.
  - split; [reflexivity|]. left. split; [exact Hc|reflexivity].
  - destruct Hc as [Hs Hc]. inversion Hpos as [|? ? Hsize Hrest]; subst.
    cbn in Hsize.
    destruct (SGD.halted o r) eqn:Hh.
    + split; [reflexivity|]. right. split; [exact Hh|].
      apply contiguous_le in Hc. split; [lia|]. exists []. now split.
    + destruct (step_fields o (SGD.r_position r) size r)
        as (_ & _ & _ & Hp & Hq & Ht & _).
      pose proof (clamp_le r size) as Hle.
      destruct (N.eq_dec (SGD.clamp o r size) size) as [Efull|Ecut].
      * rewrite Efull in Hq, Ht.
        destruct (IH (SGD.step o (SGD.r_position r) size r) stop) as (He & Hcase).
        { now rewrite Hq. }
        { exact Hrest. }
        split; [now rewrite He, step_epoch|].
        destruct Hcase as [[H1 H2] | (H1 & H2 & done & H3 & H4)].
        -- left. split; [exact H1|]. rewrite H2, Ht. cbn.
           now rewrite <- app_assoc.
        -- right. split; [exact H1|]. split; [exact H2|].
           exists ((SGD.r_position r, size) :: done). split.
           ++ rewrite H3, Ht. cbn. now rewrite <- app_assoc.
           ++ cbn. split; [reflexivity|]. now rewrite <- Hq.
      * assert (Hx : SGD.halted o (SGD.step o (SGD.r_position r) size r) = true).
        { unfold SGD.halted. rewrite clamp_short_exhausts by lia.
          apply orb_true_r. }
        rewrite (run_batches_halted o rest _ Hx).
        split; [apply step_epoch|]. right. split; [exact Hx|].
        apply contiguous_le in Hc. split; [rewrite Hq; lia|].
        exists [(SGD.r_position r, SGD.clamp o r size)]. split.
        -- now rewrite Ht.
        -- cbn. split; [reflexivity|]. now rewrite Hq.
Qed.

Lemma epoch_begin_fields (r : ERun) :
  SGD.r_position (SGD.epoch_begin o r) = 0
  /\ SGD.r_trace (SGD.epoch_begin o r) = SGD.r_trace r
  /\ SGD.r_epoch (SGD.epoch_begin o r) = SGD.r_epoch r
  /\ SGD.r_points (SGD.epoch_begin o r) = SGD.r_points r
  /\ SGD.r_iterate (SGD.epoch_begin o r) = SGD.r_iterate r
  /\ SGD.r_update (SGD.epoch_begin o r) = SGD.r_update r.
Proof.
  unfold SGD.epoch_begin.
  match goal with |- context [SGD.notify ?h ?x] =>
    destruct (notify_fields h x) as (Hi & _ & Hu & _ & _ & Hp & Hq & Ht & _);
    destruct (notify_objective h x) as (_ & _ & _ & He)
  end.
  rewrite Hq, Ht, He, Hp, Hi, Hu. repeat split; reflexivity.
Qed.

Lemma epoch_end_fields (r : ERun) :
  SGD.r_position (SGD.epoch_end o numFunctions r) = 0
  /\ SGD.r_trace (SGD.epoch_end o numFunctions r) = SGD.r_trace r
  /\ SGD.r_epoch (SGD.epoch_end o numFunctions r) = SGD.r_epoch r + 1
  /\ SGD.r_points (SGD.epoch_end o numFunctions r) = SGD.r_points r
  /\ SGD.r_iterate (SGD.epoch_end o numFunctions r) = SGD.r_iterate r
  /\ SGD.r_update (SGD.epoch_end o numFunctions r) = SGD.r_update r.
Proof.
  unfold SGD.epoch_end.
  match goal with |- context [SGD.notify ?h ?x] =>
    destruct (notify_fields h x) as (Hi & _ & Hu & _ & _ & Hp & Hq & Ht & _);
    destruct (notify_objective h x) as (_ & _ & _ & He)
  end.
  rewrite Hq, Ht, He, Hp, Hi, Hu. repeat split; reflexivity.
Qed.

(** One pass of the loop body is a whole epoch, or the run halted in it. *)
Lemma epoch_trace (r : ERun) :
  1 <= SGD.batchSize o ->
  let batches := SGD.epoch_batches (SGD.batchSize o) numFunctions in
  let r' := SGD.epoch o numFunctions r in
  (SGD.r_epoch r' = SGD.r_epoch r + 1
   /\ SGD.r_trace r' = rev batches ++ SGD.r_trace r)
  \/ (SGD.halted o r' = true /\ SGD.r_epoch r' = SGD.r_epoch r
      /\ exists done,
           SGD.r_trace r' = rev done ++ SGD.r_trace r
           /\ SGD.contiguous 0 done (SGD.r_position r')
           /\ SGD.r_position r' < numFunctions).
Proof.
  intros HB batches r'. subst r'. unfold SGD.epoch. fold batches.
  destruct (epoch_begin_fields r) as (Hq & Ht & He & _).
  destruct (run_batches_trace batches (SGD.epoch_begin o r) numFunctions)
    as (He2 & Hcase).
  { rewrite Hq. apply batches_from_contiguous; [exact HB|lia|lia]. }
  { eapply Forall_impl; [|apply batches_from_positive; exact HB].
    cbn. intros ? ?. lia. }
  destruct Hcase as [[H1 H2] | (H1 & H2 & done & H3 & H4)].
  - rewrite H1, N.eqb_refl.
    destruct (epoch_end_fields (SGD.run_batches o batches (SGD.epoch_begin o r)))
      as (_ & Kt & Ke & _).
    left. rewrite Ke, Kt, He2, He, H2, Ht. split; reflexivity.
  - destruct (_ =? _) eqn:E; [apply N.eqb_eq in E; lia|].
    right. split; [exact H1|]. split; [now rewrite He2, He|].
    exists done. split; [now rewrite H3, Ht|]. split; [|exact H2].
    now rewrite Hq in H4.
Qed.

(** A run is a number of whole epochs, followed by the batches of at most one
    pass that was cut short: consecutive batches from sample 0 that end
    before the last sample. *)
Lemma epochs_trace fuel : forall (r r' : ERun),
  1 <= SGD.batchSize o ->
  SGD.epochs o numFunctions fuel r = Some r' ->
  let batches := SGD.epoch_batches (SGD.batchSize o) numFunctions in
  exists k done stop,
    SGD.r_epoch r' = SGD.r_epoch r + N.of_nat k
    /\ rev (SGD.r_trace r')
       = rev (SGD.r_trace r) ++ concat (repeat batches k) ++ done
    /\ SGD.contiguous 0 done stop
    /\ (done = [] \/ stop < numFunctions).
Proof.
  induction fuel as [|fuel IH]; intros r r' HB; cbn;
    destruct (SGD.halted o r) eqn:Hh; intros E; try discriminate.
  - inversion E; subst. exists 0%nat, [], 0. cbn.
    split; [lia|]. split; [now rewrite app_nil_r|]. split; [reflexivity|now left].
  - inversion E; subst. exists 0%nat, [], 0. cbn.
    split; [lia|]. split; [now rewrite app_nil_r|]. split; [reflexivity|now left].
  - destruct (epoch_trace r HB) as [[He Ht] | (Hx & He & done & Ht & Hc & Hlt)].
    + destruct (IH _ _ HB E) as (k & done & stop & Ke & Kt & Kc & Kd).
      exists (S k), done, stop. split; [lia|]. split; [|split; assumption].
      rewrite Kt, Ht, rev_app_distr, rev_involutive. cbn.
      now rewrite <- !app_assoc.
    + rewrite (epochs_halted o numFunctions fuel _ Hx) in E.
      inversion E; subst.
      exists 0%nat, done, (SGD.r_position (SGD.epoch o numFunctions r)). cbn.
      split; [lia|]. split; [|split; [exact Hc|now right]].
      now rewrite Ht, rev_app_distr, rev_involutive.
Qed.

End EpochFacts.

(** * Termination *)
Section Termination.
Context {U D F MatType GradType CB : Type}.
Context {A : ArmaType MatType}.
Context {FT : SeparableFunctionType F MatType GradType}.
Context {UP : UpdatePolicyType U MatType GradType}.
Context {DP : DecayPolicyType D MatType GradType}.
Context {CT : CallbackType CB MatType GradType}.
Variable o : SGD.t U D.
Variable numFunctions : size_t.

Abbreviation TRun := (@SGD.Run U D F MatType CB A).

Lemma step_accounted start size (r : TRun) :
  SGD.accounted o r -> SGD.accounted o (SGD.step o start size r).
Proof.
  intros [Ht Hp].
  destruct (step_fields o start size r) as (_ & _ & _ & Kp & _ & Kt & _).
  unfold SGD.accounted, SGD.processed in *. rewrite Kp, Kt. cbn. split; [lia|].
  intros Hmax. specialize (Hp Hmax). unfold SGD.clamp.
  destruct (SGD.maxIterations o =? 0) eqn:E; [apply N.eqb_eq in E; lia|lia].
Qed.

Lemma epochs_accounted fuel (r r' : TRun) :
  SGD.accounted o r -> SGD.epochs o numFunctions fuel r = Some r' ->
  SGD.accounted o r'.
Proof.
  apply (epochs_invariant o numFunctions (SGD.accounted o)).
  - apply step_accounted.
  - intros x H. destruct (epoch_begin_fields o x) as (_ & Kt & _ & Kp & _).
    unfold SGD.accounted in *. now rewrite Kt, Kp.
  - intros x H. destruct (epoch_end_fields o numFunctions x) as (_ & Kt & _ & Kp & _).
    unfold SGD.accounted in *. now rewrite Kt, Kp.
Qed.

(** Points are never taken back. *)
Lemma step_points_le start size (r : TRun) :
  SGD.r_points r <= SGD.r_points (SGD.step o start size r).
Proof.
  destruct (step_fields o start size r) as (_ & _ & _ & Kp & _). lia.
Qed.

Lemma run_batches_points_le batches : forall (r : TRun),
  SGD.r_points r <= SGD.r_points (SGD.run_batches o batches r).
Proof.
  induction batches as [|[start size] rest IH]; intros r; cbn; [lia|].
  destruct (SGD.halted o r); [lia|].
  specialize (IH (SGD.step o start size r)).
  pose proof (step_points_le start size r). lia.
Qed.

(** A stop request is never withdrawn. *)
Lemma notify_stop_mono hook (r : TRun) :
  SGD.r_stop r = true -> SGD.r_stop (SGD.notify hook r) = true.
Proof.
  intros H. destruct (notify_fields hook r) as (_ & _ & _ & _ & _ & _ & _ & _ & K).
  now rewrite K, H.
Qed.

(** An epoch entered by a run that is not halted processes a point, unless a
    callback asks to stop as it begins. *)
Lemma epoch_progress (r : TRun) :
  1 <= SGD.batchSize o -> 1 <= numFunctions ->
  SGD.halted o r = false ->
  let r' := SGD.epoch o numFunctions r in
  SGD.halted o r' = true \/ SGD.r_points r < SGD.r_points r'.
Proof.
  intros HB HN Hh r'. subst r'. unfold SGD.epoch.
  destruct (epoch_begin_fields o r) as (Hq & _ & _ & Hp & _).
  set (r1 := SGD.epoch_begin o r) in *.
  destruct (SGD.halted o r1) eqn:H1.
  - rewrite (run_batches_halted o _ r1 H1), Hq.
    destruct (0 =? numFunctions) eqn:E; [apply N.eqb_eq in E; lia|].
    now left.
  - right.
    assert (Hlt : SGD.r_points r
                  < SGD.r_points (SGD.run_batches o
                      (SGD.epoch_batches (SGD.batchSize o) numFunctions) r1)).
    { unfold SGD.epoch_batches.
      destruct (N.to_nat numFunctions) as [|n] eqn:En; [lia|].
      cbn [SGD.batches_from].
      destruct (numFunctions <=? 0) eqn:E; [apply N.leb_le in E; lia|].
      cbn [SGD.run_batches]. rewrite H1.
      match goal with |- _ < SGD.r_points (SGD.run_batches o ?bs ?x) =>
        pose proof (run_batches_points_le bs x) as Hle end.
      destruct (step_fields o 0 (N.min (SGD.batchSize o) (numFunctions - 0)) r1)
        as (_ & _ & _ & Kp & _).
      assert (1 <= SGD.clamp o r1 (N.min (SGD.batchSize o) (numFunctions - 0))).
      { unfold SGD.clamp.
        destruct (SGD.maxIterations o =? 0) eqn:Em; [lia|].
        unfold SGD.halted, SGD.exhausted in H1. rewrite Em in H1.
        apply orb_false_iff in H1. destruct H1 as [_ H1]. cbn in H1.
        apply N.leb_gt in H1. lia. }
      lia. }
    destruct (_ =? _); [|exact Hlt].
    destruct (epoch_end_fields o numFunctions
                (SGD.run_batches o (SGD.epoch_batches (SGD.batchSize o) numFunctions) r1))
      as (_ & _ & _ & Kp & _).
    now rewrite Kp.
Qed.

(** With a positive iteration limit the loop stops within that many epochs. *)
Lemma epochs_terminate :
  1 <= SGD.batchSize o -> 1 <= numFunctions -> 0 < SGD.maxIterations o ->
  forall n (r : TRun),
    (N.to_nat (SGD.maxIterations o - SGD.r_points r) <= n)%nat ->
    exists r', SGD.epochs o numFunctions (S n) r = Some r'.
Proof.
  intros HB HN Hmax. induction n as [|n IH]; intros r Hn.
  - assert (Hh : SGD.halted o r = true).
    { unfold SGD.halted, SGD.exhausted.
      destruct (SGD.maxIterations o =? 0) eqn:E; [apply N.eqb_eq in E; lia|].
      cbn. replace (SGD.maxIterations o <=? SGD.r_points r) with true
        by (symmetry; apply N.leb_le; lia).
      apply orb_true_r. }
    exists r. now apply epochs_halted.
  - destruct (SGD.halted o r) eqn:Hh.
    + exists r. now apply epochs_halted.
    + change (SGD.epochs o numFunctions (S (S n)) r)
        with (if SGD.halted o r then Some r
              else SGD.epochs o numFunctions (S n) (SGD.epoch o numFunctions r)).
      rewrite Hh.
      destruct (epoch_progress r HB HN Hh) as [Hx | Hlt].
      * eexists. now apply epochs_halted.
      * apply IH. lia.
Qed.

(** Without a limit, without callbacks and with a tolerance the check never
    meets, no amount of unfolding reaches the end of the loop. *)
Lemma epochs_diverge :
  SGD.maxIterations o = 0 ->
  (forall a b : elem_type, elem_within a b (SGD.tolerance o) = false) ->
  forall fuel (r : TRun),
    SGD.r_stop r = false -> SGD.r_callbacks r = [] ->
    SGD.epochs o numFunctions fuel r = None.
Proof.
  intros Hmax Htol.
  assert (Hhalt : forall r : TRun, SGD.r_stop r = false -> SGD.halted o r = false).
  { intros r H. unfold SGD.halted, SGD.exhausted. now rewrite H, Hmax. }
  assert (Hquiet : forall r : TRun,
             SGD.r_stop r = false /\ SGD.r_callbacks r = [] ->
             SGD.r_stop (SGD.epoch o numFunctions r) = false
             /\ SGD.r_callbacks (SGD.epoch o numFunctions r) = []).
  { apply (epoch_invariant o numFunctions
             (fun x => SGD.r_stop x = false /\ SGD.r_callbacks x = [])).
    - intros start size x [Hs Hc]. unfold SGD.step.
      rewrite (notify_nil _ x Hc). rewrite (notify_nil _ x Hc).
      destruct (Update _ _ _ _) as [u y]. destruct (DecayUpdate _ _ _ _) as [d s].
      rewrite notify_nil by exact Hc. cbn. now split.
    - intros x [Hs Hc]. unfold SGD.epoch_begin.
      rewrite notify_nil by exact Hc. cbn. now split.
    - intros x [Hs Hc]. unfold SGD.epoch_end.
      rewrite notify_nil by exact Hc. cbn. split; [|exact Hc].
      rewrite Hs. cbn. unfold SGD.converged.
      destruct (SGD.r_objective x); [apply Htol|reflexivity]. }
  induction fuel as [|fuel IH]; intros r Hs Hc; cbn; rewrite (Hhalt r Hs).
  - reflexivity.
  - destruct (Hquiet r (conj Hs Hc)) as [Hs' Hc']. now apply IH.
Qed.

End Termination.

(** The tolerance check of the concrete backend is never met at tolerance
    zero: no absolute value is below zero. *)
Lemma Demo_never_within_zero (a b : float) :
  elem_within (MatType := Demo.vec) a b 0%float = false.
Proof.
  cbn. rewrite ltb_spec, abs_spec.
  destruct (Prim2SF (a - b)) as [ [] | [] | | [] m e ]; reflexivity.
Qed.

(** A call that passes the check and has a positive iteration limit returns,
    within that many points. *)
Lemma Optimize_returns_within_limit
    {Moments F MatType GradType CB : Type} {A : ArmaType MatType}
    {FT : SeparableFunctionType F MatType GradType}
    {R : PadamUpdate.Rule Moments MatType GradType}
    {CT : CallbackType CB MatType GradType}
    (p : Padam.t Moments) (function : F) (iterate : MatType)
    (callbacks : list CB) :
  SGD.check (Padam.optimizer p) function iterate = None ->
  0 < Padam.MaxIterations p ->
  let o := Padam.optimizer p in
  let N := Objective.NumFunctions function in
  let fuel := S (N.to_nat (Padam.MaxIterations p)) in
  exists r,
    SGD.run fuel o function iterate callbacks = Some r
    /\ SGD.processed (SGD.r_trace r) = SGD.r_points r
    /\ SGD.r_points r <= Padam.MaxIterations p
    /\ Padam.Optimize (sgd_Optimize fuel) GradType p function iterate callbacks
       = Some (Returned (SGD.final_objective o N r)
                (mkStore (Padam.mk (SGD.after o r)) (SGD.r_function r)
                         (SGD.r_iterate r) (SGD.r_callbacks r))).
Proof.
  intros Hcheck Hmax o N fuel. fold o in Hcheck.
  assert (HBN : 1 <= SGD.batchSize o /\ 1 <= N).
  { unfold SGD.check in Hcheck. fold N in Hcheck.
    destruct (n_elem iterate =? 0); [discriminate|].
    destruct (SGD.batchSize o =? 0) eqn:E1; [discriminate|].
    destruct (N =? 0) eqn:E2; [discriminate|].
    apply N.eqb_neq in E1, E2. lia. }
  destruct HBN as [HB HN].
  assert (Hstart : SGD.r_points (SGD.start o function iterate callbacks) = 0
                   /\ SGD.r_trace (SGD.start o function iterate callbacks) = []).
  { unfold SGD.start.
    match goal with |- context [SGD.notify ?h ?x] =>
      destruct (notify_fields h x) as (_ & _ & _ & _ & _ & Kp & _ & Kt & _)
    end.
    rewrite Kp, Kt. split; reflexivity. }
  destruct Hstart as [Hp0 Ht0].
  subst fuel. change (Padam.MaxIterations p) with (SGD.maxIterations o) in *.
  destruct (epochs_terminate o N HB HN Hmax (N.to_nat (SGD.maxIterations o))
              (SGD.start o function iterate callbacks)) as [r Hr].
  { rewrite Hp0. lia. }
  exists r.
  assert (Hacc : SGD.accounted o r).
  { eapply epochs_accounted; [|exact Hr].
    unfold SGD.accounted. rewrite Hp0, Ht0. cbn. split; [reflexivity|lia]. }
  destruct Hacc as [Ha1 Ha2].
  split; [exact Hr|]. split; [exact Ha1|]. split; [now apply Ha2|].
  unfold Padam.Optimize, sgd_Optimize, SGD.Optimize.
  fold o. rewrite Hcheck. unfold SGD.run in *. fold N. rewrite Hr. reflexivity.
Qed.

(** Without an iteration limit the loop need not end: on the sphere function,
    with [maxIterations = 0], tolerance zero and no callback, the call passes
    the configuration check and no number of epochs ends it. *)
Example Optimize_unbounded_never_returns :
  SGD.check (Padam.optimizer Demo.unbounded) (Demo.SphereFunction 4) Demo.x0 = None
  /\ Padam.MaxIterations Demo.unbounded = 0
  /\ forall fuel,
       Padam.Optimize (sgd_Optimize fuel) Demo.vec Demo.unbounded
                      (Demo.SphereFunction 4) Demo.x0 (@nil Demo.counter)
       = None.
Proof.
  split; [reflexivity|]. split; [reflexivity|].
  intros fuel.
  unfold Padam.Optimize, sgd_Optimize, SGD.Optimize.
  change (SGD.check (Padam.optimizer Demo.unbounded) (Demo.SphereFunction 4) Demo.x0)
    with (@None ConfigurationError).
  cbv iota. unfold SGD.run.
  rewrite epochs_diverge; try reflexivity.
  exact Demo_never_within_zero.
Qed.

(** * Reset semantics *)
Section Reset.
Context {Moments F MatType GradType CB : Type}.
Context {A : ArmaType MatType}.
Context {FT : SeparableFunctionType F MatType GradType}.
Context {R : PadamUpdate.Rule Moments MatType GradType}.
Context {CT : CallbackType CB MatType GradType}.

Abbreviation RRun := (@SGD.Run (PadamUpdate.t Moments) NoDecay.t F MatType CB A).

(** With [resetPolicy] on, a driver whose policy went through a run starts
    its next run exactly as the driver it was before that run. *)
Lemma start_after_reset (o : SGD.t (PadamUpdate.t Moments) NoDecay.t) (r : RRun)
    (function : F) (iterate : MatType) (callbacks : list CB) :
  SGD.resetPolicy o = true ->
  PadamUpdate.hyper (SGD.r_update r) = PadamUpdate.hyper (SGD.updatePolicy o) ->
  SGD.start (SGD.after o r) function iterate callbacks
  = SGD.start o function iterate callbacks.
Proof.
  intros Hreset Hhyper. unfold SGD.start, SGD.start_update, SGD.start_decay.
  cbn. rewrite Hreset. cbn.
  unfold PadamUpdate.hyper in Hhyper. inversion Hhyper as [[He H1 H2 Hp]].
  rewrite He, H1, H2, Hp.
  destruct (SGD.r_decay r), (SGD.decayPolicy o). reflexivity.
Qed.

(** The loop reads the configuration of the driver only, which a run leaves
    as it was: the next call differs from a first call at most in the policy
    object a failed call hands back. *)
Lemma Optimize_after_reset (o : SGD.t (PadamUpdate.t Moments) NoDecay.t) (r : RRun)
    fuel (function : F) (iterate : MatType) (callbacks : list CB) :
  SGD.resetPolicy o = true ->
  PadamUpdate.hyper (SGD.r_update r) = PadamUpdate.hyper (SGD.updatePolicy o) ->
  match SGD.check o function iterate with
  | Some err =>
      SGD.Optimize fuel (SGD.after o r) function iterate callbacks
      = Some (Threw err (mkStore (SGD.after o r) function iterate callbacks))
      /\ SGD.Optimize fuel o function iterate callbacks
         = Some (Threw err (mkStore o function iterate callbacks))
  | None =>
      SGD.Optimize fuel (SGD.after o r) function iterate callbacks
      = SGD.Optimize fuel o function iterate callbacks
      /\ forall out, SGD.Optimize fuel o function iterate callbacks = Some out ->
                     exists v s, out = Returned v s
  end.
Proof.
  intros Hreset Hhyper. unfold SGD.Optimize, SGD.run.
  rewrite (start_after_reset o r function iterate callbacks Hreset Hhyper).
  change (SGD.check (SGD.after o r) function iterate)
    with (SGD.check o function iterate).
  destruct (SGD.check o function iterate) as [err|].
  - split; reflexivity.
  - split; [reflexivity|].
    intros out. destruct (SGD.epochs _ _ _ _); [|discriminate].
    intros E. inversion E; subst. eauto.
Qed.

(** With [resetPolicy] on, a run starts from zero-filled accumulators. *)
Lemma start_reset_moments (o : SGD.t (PadamUpdate.t Moments) NoDecay.t)
    (function : F) (iterate : MatType) (callbacks : list CB) :
  SGD.resetPolicy o = true ->
  PadamUpdate.moments (SGD.r_update (SGD.start o function iterate callbacks))
  = Some (PadamUpdate.zeros (n_rows iterate) (n_cols iterate)).
Proof.
  intros Hreset. unfold SGD.start.
  match goal with |- context [SGD.notify ?h ?x] =>
    destruct (notify_fields h x) as (_ & _ & Ku & _) end.
  rewrite Ku. cbn. unfold SGD.start_update. now rewrite Hreset.
Qed.

(** With [resetPolicy] off, the run starts from the policy the driver holds. *)
Lemma start_keeps_policy (o : SGD.t (PadamUpdate.t Moments) NoDecay.t)
    (function : F) (iterate : MatType) (callbacks : list CB) :
  SGD.resetPolicy o = false ->
  SGD.r_update (SGD.start o function iterate callbacks) = SGD.updatePolicy o.
Proof.
  intros Hreset. unfold SGD.start.
  match goal with |- context [SGD.notify ?h ?x] =>
    destruct (notify_fields h x) as (_ & _ & Ku & _) end.
  rewrite Ku. cbn. unfold SGD.start_update. now rewrite Hreset.
Qed.

End Reset.



(** Without the reset the accumulators a first call leaves do change what a
    second call from the same starting point returns. *)
Example no_reset_second_call_differs :
  let p := Padam.set_ResetPolicy false Demo.small in
  let call q :=
    Padam.Optimize' (sgd_Optimize 8) q (Demo.SphereFunction 4) Demo.x0
                    (@nil Demo.counter) in
  option_map outcome_value (call p) = Some (inl 1.8938366074056407%float)
  /\ option_map
       (fun out => option_map outcome_value (call (outcome_self out))) (call p)
     = Some (Some (inl 0.04706102449741114%float)).
Proof. vm_compute. split; reflexivity. Qed.

(** * Early stop *)
Section EarlyStop.
Context {U D F MatType GradType CB : Type}.
Context {A : ArmaType MatType}.
Context {FT : SeparableFunctionType F MatType GradType}.
Context {UP : UpdatePolicyType U MatType GradType}.
Context {DP : DecayPolicyType D MatType GradType}.
Context {CT : CallbackType CB MatType GradType}.
Variable o : SGD.t U D.
Variable numFunctions : size_t.

Abbreviation SRun := (@SGD.Run U D F MatType CB A).

Lemma epoch_end_stop_mono (r : SRun) :
  SGD.r_stop r = true -> SGD.r_stop (SGD.epoch_end o numFunctions r) = true.
Proof.
  intros H. unfold SGD.epoch_end. apply notify_stop_mono. cbn. now rewrite H.
Qed.

Lemma stopped_is_halted (r : SRun) : SGD.r_stop r = true -> SGD.halted o r = true.
Proof. intros H. unfold SGD.halted. now rewrite H. Qed.

(** The step that raises the flag is the last step of its epoch. *)
Lemma run_batches_stop start size rest (r : SRun) :
  SGD.halted o r = false ->
  SGD.r_stop (SGD.step o start size r) = true ->
  SGD.run_batches o ((start, size) :: rest) r = SGD.step o start size r.
Proof.
  intros Hh Hs. cbn [SGD.run_batches]. rewrite Hh.
  apply run_batches_halted. now apply stopped_is_halted.
Qed.

End EarlyStop.

(** * The run and its batches *)
Section RunReplay.
Context {U D F MatType GradType CB : Type}.
Context {A : ArmaType MatType}.
Context {FT : SeparableFunctionType F MatType GradType}.
Context {UP : UpdatePolicyType U MatType GradType}.
Context {DP : DecayPolicyType D MatType GradType}.
Context {CT : CallbackType CB MatType GradType}.
Variable o : SGD.t U D.
Variable numFunctions : size_t.

Abbreviation PRun := (@SGD.Run U D F MatType CB A).

(** A dispatch point runs the hook of every registered callback, and the
    request it reports is that of any of them. *)
Lemma dispatch_spec (hook : CB -> CB * bool) (callbacks : list CB) :
  SGD.dispatch hook callbacks
  = (map (fun c => fst (hook c)) callbacks,
     existsb (fun c => snd (hook c)) callbacks).
Proof.
  induction callbacks as [|c rest IH]; cbn; [reflexivity|].
  rewrite IH. destruct (hook c). reflexivity.
Qed.

Lemma notify_unfold (hook : CB -> CB * bool) (r : PRun) :
  SGD.notify hook r
  = SGD.mkRun (SGD.r_iterate r) (SGD.r_function r)
      (map (fun c => fst (hook c)) (SGD.r_callbacks r))
      (SGD.r_update r) (SGD.r_decay r) (SGD.r_stepSize r) (SGD.r_points r)
      (SGD.r_position r) (SGD.r_epoch r) (SGD.r_lossSum r) (SGD.r_batches r)
      (SGD.r_objective r)
      (SGD.r_stop r || existsb (fun c => snd (hook c)) (SGD.r_callbacks r))
      (SGD.r_trace r).
Proof. unfold SGD.notify. now rewrite dispatch_spec. Qed.

(** One batch, written out. *)
Lemma step_unfold start size (r : PRun) :
  let c := SGD.clamp o r size in
  let loss := Objective.Evaluate (SGD.r_function r) (SGD.r_iterate r) start c in
  let g := Objective.Gradient (SGD.r_function r) (SGD.r_iterate r) start c in
  let ux := Update (SGD.r_update r) (SGD.r_iterate r) (SGD.r_stepSize r) g in
  let ds := DecayUpdate (SGD.r_decay r) (snd ux) (SGD.r_stepSize r) g in
  let cb1 := map (fun c => fst (BeginStep c (SGD.r_iterate r))) (SGD.r_callbacks r) in
  let cb2 := map (fun c => fst (GradientComputed c (SGD.r_iterate r) g)) cb1 in
  let cb3 := map (fun c => fst (EndStep c (snd ux))) cb2 in
  SGD.step o start size r
  = SGD.mkRun (snd ux) (SGD.r_function r) cb3 (fst ux) (fst ds) (snd ds)
      (SGD.r_points r + c) (start + c) (SGD.r_epoch r)
      (elem_add (SGD.r_lossSum r) loss) (SGD.r_batches r + 1)
      (SGD.r_objective r)
      (SGD.r_stop r
       || existsb (fun c => snd (BeginStep c (SGD.r_iterate r))) (SGD.r_callbacks r)
       || existsb (fun c => snd (GradientComputed c (SGD.r_iterate r) g)) cb1
       || existsb (fun c => snd (EndStep c (snd ux))) cb2)
      ((start, c) :: SGD.r_trace r).
Proof.
  cbv zeta. unfold SGD.step. rewrite !notify_unfold. cbn.
  destruct (Update _ _ _ _) as [u x]. cbn.
  destruct (DecayUpdate _ _ _ _) as [d s]. cbn.
  rewrite notify_unfold. cbn. reflexivity.
Qed.

Lemma epoch_begin_unfold (r : PRun) :
  SGD.epoch_begin o r
  = SGD.mkRun (SGD.r_iterate r) (Reference.pending o (SGD.r_function r))
      (map (fun c => fst (BeginEpoch c (SGD.r_iterate r) (SGD.r_epoch r)))
           (SGD.r_callbacks r))
      (SGD.r_update r) (SGD.r_decay r) (SGD.r_stepSize r) (SGD.r_points r)
      0 (SGD.r_epoch r) elem_zero 0 (SGD.r_objective r)
      (SGD.r_stop r
       || existsb (fun c => snd (BeginEpoch c (SGD.r_iterate r) (SGD.r_epoch r)))
                  (SGD.r_callbacks r))
      (SGD.r_trace r).
Proof. unfold SGD.epoch_begin. rewrite notify_unfold. reflexivity. Qed.

Lemma epoch_end_unfold (r : PRun) :
  let objective := SGD.epoch_objective o numFunctions r in
  SGD.epoch_end o numFunctions r
  = SGD.mkRun (SGD.r_iterate r) (SGD.r_function r)
      (map (fun c => fst (EndEpoch c (SGD.r_iterate r) (SGD.r_epoch r) objective))
           (SGD.r_callbacks r))
      (SGD.r_update r) (SGD.r_decay r) (SGD.r_stepSize r) (SGD.r_points r)
      0 (SGD.r_epoch r + 1) elem_zero 0 (Some objective)
      (SGD.r_stop r || SGD.converged o r objective
       || existsb (fun c => snd (EndEpoch c (SGD.r_iterate r) (SGD.r_epoch r) objective))
                  (SGD.r_callbacks r))
      (SGD.r_trace r).
Proof. cbv zeta. unfold SGD.epoch_end. rewrite notify_unfold. reflexivity. Qed.

Variable init : @Reference.State U D F MatType A.

Lemma replay_snoc shuffle (st : @Reference.State U D F MatType A) trace batch :
  Reference.replay shuffle st (trace ++ [batch])
  = Reference.advance shuffle (Reference.replay shuffle st trace) batch.
Proof. unfold Reference.replay. now rewrite fold_left_app. Qed.

(** A batch of a run that is not halted has at least one sample. *)
Lemma clamp_positive (r : PRun) size :
  SGD.halted o r = false -> 1 <= size -> 1 <= SGD.clamp o r size.
Proof.
  unfold SGD.halted, SGD.exhausted, SGD.clamp. intros Hh Hsize.
  destruct (SGD.maxIterations o =? 0); [exact Hsize|].
  apply orb_false_iff in Hh. destruct Hh as [_ Hh]. cbn in Hh.
  apply N.leb_gt in Hh. lia.
Qed.

(** A batch taken where the pass stands keeps the run in step with its
    batches. *)
Lemma step_in_pass (r : PRun) size :
  Reference.in_pass o init r ->
  SGD.halted o r = false -> 1 <= size ->
  Reference.in_pass o init (SGD.step o (SGD.r_position r) size r).
Proof.
  intros (Hag & Hcase) Hh Hsize.
  pose proof (clamp_positive r size Hh Hsize) as Hc.
  rewrite step_unfold. cbv zeta.
  unfold Reference.in_pass, Reference.agrees in *.
  cbn [SGD.r_trace SGD.r_iterate SGD.r_update SGD.r_decay SGD.r_stepSize
       SGD.r_position SGD.r_function SGD.r_batches SGD.r_lossSum rev].
  rewrite replay_snoc.
  set (st := Reference.replay (SGD.shuffle o) init (rev (SGD.r_trace r))) in *.
  destruct Hag as (Hi & Hu & Hd & Hs).
  destruct Hcase as [(Hq & Hf & Hb & Hl & _) | (Hq & Hf & Hb & Hnz & Hl)].
  - rewrite Hq. unfold Reference.advance. cbn [fst snd].
    rewrite N.eqb_refl, andb_true_r.
    change (if SGD.shuffle o then Objective.Shuffle (Reference.s_function st)
            else Reference.s_function st)
      with (Reference.pending o (Reference.s_function st)).
    rewrite <- Hf, <- Hi, <- Hu, <- Hd, <- Hs, Hl, Hb.
    cbn [Reference.s_iterate Reference.s_update Reference.s_decay
         Reference.s_stepSize Reference.s_function Reference.s_batches
         Reference.s_lossSum].
    split; [repeat split; reflexivity|].
    right. repeat split; try reflexivity; lia.
  - unfold Reference.advance. cbn [fst snd].
    destruct (SGD.r_position r =? 0) eqn:E; [apply N.eqb_eq in E; contradiction|].
    rewrite andb_false_r.
    rewrite <- Hf, <- Hi, <- Hu, <- Hd, <- Hs, <- Hl, <- Hb.
    cbn [Reference.s_iterate Reference.s_update Reference.s_decay
         Reference.s_stepSize Reference.s_function Reference.s_batches
         Reference.s_lossSum].
    split; [repeat split; reflexivity|].
    right. repeat split; try reflexivity; lia.
Qed.

Lemma run_batches_in_pass batches : forall (r : PRun) stop,
  Reference.in_pass o init r ->
  SGD.contiguous (SGD.r_position r) batches stop ->
  Forall (fun b => 1 <= snd b) batches ->
  Reference.in_pass o init (SGD.run_batches o batches r).
Proof.
  induction batches as [|[start size] rest IH]; intros r stop Hin Hc Hpos;
    cbn in *; [exact Hin|].
  destruct Hc as [Hs Hc]. subst start.
  inversion Hpos as [|? ? Hsize Hrest]; subst. cbn in Hsize.
  destruct (SGD.halted o r) eqn:Hh; [exact Hin|].
  pose proof (step_in_pass r size Hin Hh Hsize) as Hstep.
  destruct (N.eq_dec (SGD.clamp o r size) size) as [Efull|Ecut].
  - apply (IH _ stop); [exact Hstep| |exact Hrest].
    destruct (step_fields o (SGD.r_position r) size r) as (_ & _ & _ & _ & Hq & _).
    now rewrite Hq, Efull.
  - rewrite run_batches_halted; [exact Hstep|].
    unfold SGD.halted. rewrite clamp_short_exhausts; [apply orb_true_r|].
    pose proof (clamp_le o r size). lia.
Qed.

(** An epoch keeps the run in step with its batches. *)
Lemma epoch_between (r : PRun) :
  1 <= SGD.batchSize o -> 1 <= numFunctions ->
  Reference.between_passes o init r ->
  SGD.halted o r = false ->
  Reference.between_passes o init (SGD.epoch o numFunctions r).
Proof.
  intros HB HN (Hag & Hest & Hready) Hh.
  destruct (Hready Hh) as [Hf Hb0].
  set (batches := SGD.epoch_batches (SGD.batchSize o) numFunctions).
  assert (Hc : SGD.contiguous 0 batches numFunctions).
  { apply batches_from_contiguous; [exact HB|lia|lia]. }
  assert (Hpos : Forall (fun b => 1 <= snd b) batches).
  { eapply Forall_impl; [|apply batches_from_positive; exact HB].
    cbn. intros ? ?. lia. }
  assert (Hbegin : Reference.in_pass o init (SGD.epoch_begin o r)).
  { rewrite epoch_begin_unfold.
    unfold Reference.in_pass, Reference.agrees in *.
    cbn [SGD.r_trace SGD.r_iterate SGD.r_update SGD.r_decay SGD.r_stepSize
         SGD.r_position SGD.r_function SGD.r_batches SGD.r_lossSum].
    split; [exact Hag|]. left. rewrite Hf.
    repeat split; try reflexivity.
    intros Hexact. rewrite <- (Hest Hexact).
    unfold SGD.last_estimate. cbn. now rewrite Hb0. }
  pose proof (run_batches_in_pass batches (SGD.epoch_begin o r) numFunctions Hbegin)
    as Hin.
  destruct (run_batches_trace o batches (SGD.epoch_begin o r) numFunctions)
    as (_ & Hcase).
  { now rewrite epoch_begin_unfold. }
  { exact Hpos. }
  unfold SGD.epoch. fold batches.
  set (r2 := SGD.run_batches o batches (SGD.epoch_begin o r)) in *.
  assert (Hin2 : Reference.in_pass o init r2).
  { apply Hin; [now rewrite epoch_begin_unfold|exact Hpos]. }
  clear Hin. destruct Hin2 as (Hag2 & Hcase2).
  destruct (SGD.r_position r2 =? numFunctions) eqn:E.
  - apply N.eqb_eq in E. rewrite epoch_end_unfold. cbv zeta.
    unfold Reference.between_passes, Reference.agrees in *.
    cbn [SGD.r_trace SGD.r_iterate SGD.r_update SGD.r_decay SGD.r_stepSize
         SGD.r_position SGD.r_function SGD.r_batches SGD.r_lossSum].
    destruct Hcase2 as [(Hq & _) | (Hq & Hf2 & Hb2 & Hnz & Hl2)]; [lia|].
    split; [exact Hag2|]. split.
    + intros Hexact. unfold SGD.last_estimate. cbn.
      unfold SGD.epoch_objective, Reference.estimate. rewrite Hexact, Hb2, Hl2.
      destruct (_ =? 0) eqn:E0; [apply N.eqb_eq in E0; contradiction|reflexivity].
    + intros _. split; [exact Hf2|reflexivity].
  - apply N.eqb_neq in E.
    assert (Hh2 : SGD.halted o r2 = true).
    { destruct Hcase as [[H1 _] | (H1 & _)]; [contradiction|exact H1]. }
    unfold Reference.between_passes.
    split; [exact Hag2|]. split; [|rewrite Hh2; discriminate].
    intros Hexact.
    destruct Hcase2 as [(_ & _ & _ & _ & Hest2) | (Hq & Hf2 & Hb2 & Hnz & Hl2)];
      [now apply Hest2|].
    unfold SGD.last_estimate, Reference.estimate. rewrite Hb2, Hl2.
    destruct (_ =? 0) eqn:E0; [apply N.eqb_eq in E0; contradiction|reflexivity].
Qed.

Lemma epochs_between fuel : forall (r r' : PRun),
  1 <= SGD.batchSize o -> 1 <= numFunctions ->
  Reference.between_passes o init r ->
  SGD.epochs o numFunctions fuel r = Some r' ->
  Reference.between_passes o init r'.
Proof.
  induction fuel as [|fuel IH]; intros r r' HB HN Hin; cbn;
    destruct (SGD.halted o r) eqn:Hh; intros E; try discriminate.
  - now inversion E; subst.
  - now inversion E; subst.
  - apply (IH (SGD.epoch o numFunctions r)); try assumption.
    now apply epoch_between.
Qed.

End RunReplay.

(** A call that passes the configuration check has batches and samples. *)
Lemma check_passes {U D F MatType GradType : Type} {A : ArmaType MatType}
    {FT : SeparableFunctionType F MatType GradType}
    (o : SGD.t U D) (function : F) (iterate : MatType) :
  SGD.check o function iterate = None ->
  1 <= SGD.batchSize o /\ 1 <= Objective.NumFunctions function.
Proof.
  unfold SGD.check.
  destruct (n_elem iterate =? 0); [discriminate|].
  destruct (SGD.batchSize o =? 0) eqn:E1; [discriminate|].
  destruct (Objective.NumFunctions function =? 0) eqn:E2; [discriminate|].
  apply N.eqb_neq in E1, E2. lia.
Qed.

(** Whatever a run goes through, when it stops its iterate, its policies and
    its last estimate are those of the batches it processed. *)
Lemma run_between {U D F MatType GradType CB : Type} {A : ArmaType MatType}
    {FT : SeparableFunctionType F MatType GradType}
    {UP : UpdatePolicyType U MatType GradType}
    {DP : DecayPolicyType D MatType GradType}
    {CT : CallbackType CB MatType GradType}
    (o : SGD.t U D) (function : F) (iterate : MatType) (callbacks : list CB)
    fuel (r : @SGD.Run U D F MatType CB A) :
  SGD.check o function iterate = None ->
  SGD.run fuel o function iterate callbacks = Some r ->
  Reference.between_passes o (Reference.initial o function iterate) r.
Proof.
  intros Hcheck Hrun. destruct (check_passes o function iterate Hcheck) as [HB HN].
  unfold SGD.run in Hrun.
  eapply epochs_between; [exact HB|exact HN| |exact Hrun].
  unfold SGD.start. rewrite notify_unfold.
  unfold Reference.between_passes, Reference.agrees.
  cbn [SGD.r_trace SGD.r_iterate SGD.r_update SGD.r_decay SGD.r_stepSize
       SGD.r_position SGD.r_function SGD.r_batches SGD.r_lossSum rev].
  cbn. repeat split; reflexivity.
Qed.

(** * Runs that nothing interrupts *)
Section QuietRuns.
Context {U D F MatType GradType CB : Type}.
Context {A : ArmaType MatType}.
Context {FT : SeparableFunctionType F MatType GradType}.
Context {UP : UpdatePolicyType U MatType GradType}.
Context {DP : DecayPolicyType D MatType GradType}.
Context {CT : CallbackType CB MatType GradType}.
Variable o : SGD.t U D.
Variable numFunctions : size_t.

Abbreviation QRun := (@SGD.Run U D F MatType CB A).

Lemma processed_app (a b : list (N * N)) :
  SGD.processed (a ++ b) = SGD.processed a + SGD.processed b.
Proof.
  unfold SGD.processed. induction a as [|x a IH]; cbn; [reflexivity|].
  rewrite IH. lia.
Qed.

Lemma processed_rev (l : list (N * N)) : SGD.processed (rev l) = SGD.processed l.
Proof.
  induction l as [|x l IH]; cbn; [reflexivity|].
  rewrite processed_app, IH. unfold SGD.processed. cbn. lia.
Qed.

Lemma contiguous_processed (l : list (N * N)) : forall start stop,
  SGD.contiguous start l stop -> start + SGD.processed l = stop.
Proof.
  induction l as [|b l IH]; intros start stop; cbn.
  - unfold SGD.processed. cbn. lia.
  - intros [_ H]. apply IH in H. unfold SGD.processed in *. cbn. lia.
Qed.

Lemma epoch_accounted (r : QRun) :
  SGD.accounted o r -> SGD.accounted o (SGD.epoch o numFunctions r).
Proof.
  apply (epoch_invariant o numFunctions (SGD.accounted o)).
  - apply step_accounted.
  - intros x H. destruct (epoch_begin_fields o x) as (_ & Kt & _ & Kp & _).
    unfold SGD.accounted in *. now rewrite Kt, Kp.
  - intros x H. destruct (epoch_end_fields o numFunctions x) as (_ & Kt & _ & Kp & _).
    unfold SGD.accounted in *. now rewrite Kt, Kp.
Qed.

Variable Q : CB -> Prop.
Hypothesis never_asked : Reference.never_asks Q.
Hypothesis never_within :
  forall a b : elem_type, elem_within a b (SGD.tolerance o) = false.

(** A dispatch point among callbacks that never ask. *)
Lemma dispatch_quiet (hook : CB -> CB * bool) (callbacks : list CB) :
  (forall c, Q c -> Q (fst (hook c)) /\ snd (hook c) = false) ->
  Forall Q callbacks ->
  Forall Q (map (fun c => fst (hook c)) callbacks)
  /\ existsb (fun c => snd (hook c)) callbacks = false.
Proof.
  intros Hhook. induction 1 as [|c rest Hc Hrest [IH1 IH2]]; cbn.
  - split; [constructor|reflexivity].
  - destruct (Hhook c Hc) as [H1 H2]. rewrite H2, IH2.
    split; [now constructor|reflexivity].
Qed.

(** With callbacks that never ask and a tolerance that the check never
    meets, nothing raises the stop flag. *)
Lemma epoch_quiet (r : QRun) :
  Reference.quiet Q r -> Reference.quiet Q (SGD.epoch o numFunctions r).
Proof.
  apply (epoch_invariant o numFunctions (Reference.quiet Q)).
  - intros start size x [Hs Hc]. rewrite step_unfold. cbv zeta.
    unfold Reference.quiet. cbn [SGD.r_stop SGD.r_callbacks]. rewrite Hs.
    match goal with |- context [existsb ?f (SGD.r_callbacks x)] =>
      destruct (dispatch_quiet (fun c => BeginStep c (SGD.r_iterate x))
                  (SGD.r_callbacks x)) as [H1 E1];
        [intros c Hq; apply (never_asked c Hq)|exact Hc|]
    end.
    rewrite E1. cbn [orb].
    match goal with |- context [GradientComputed _ _ ?g] =>
      destruct (dispatch_quiet (fun c => GradientComputed c (SGD.r_iterate x) g)
                  _ ltac:(intros c Hq; apply (never_asked c Hq)) H1) as [H2 E2]
    end.
    rewrite E2. cbn [orb].
    match goal with |- context [EndStep _ ?y] =>
      destruct (dispatch_quiet (fun c => EndStep c y)
                  _ ltac:(intros c Hq; apply (never_asked c Hq)) H2) as [H3 E3]
    end.
    rewrite E3. now split.
  - intros x [Hs Hc]. rewrite epoch_begin_unfold.
    unfold Reference.quiet. cbn [SGD.r_stop SGD.r_callbacks]. rewrite Hs.
    destruct (dispatch_quiet
                (fun c => BeginEpoch c (SGD.r_iterate x) (SGD.r_epoch x))
                _ ltac:(intros c Hq; apply (never_asked c Hq)) Hc) as [H1 E1].
    rewrite E1. now split.
  - intros x [Hs Hc]. rewrite epoch_end_unfold. cbv zeta.
    unfold Reference.quiet. cbn [SGD.r_stop SGD.r_callbacks]. rewrite Hs.
    match goal with |- context [EndEpoch _ _ _ ?v] =>
      destruct (dispatch_quiet
                  (fun c => EndEpoch c (SGD.r_iterate x) (SGD.r_epoch x) v)
                  _ ltac:(intros c Hq; apply (never_asked c Hq)) Hc) as [H1 E1]
    end.
    rewrite E1. split; [|exact H1].
    rewrite orb_false_r. cbn [orb]. unfold SGD.converged.
    destruct (SGD.r_objective x); [apply never_within|reflexivity].
Qed.

Lemma epochs_quiet fuel : forall (r r' : QRun),
  Reference.quiet Q r -> SGD.epochs o numFunctions fuel r = Some r' ->
  Reference.quiet Q r'.
Proof.
  induction fuel as [|fuel IH]; intros r r' H; cbn;
    destruct (SGD.halted o r); intros E; try discriminate.
  - now inversion E; subst.
  - now inversion E; subst.
  - eapply IH; [|exact E]. now apply epoch_quiet.
Qed.

(** Such a run stops only at the iteration limit, and exactly there. *)
Lemma quiet_halted_at_limit (r : QRun) :
  Reference.quiet Q r -> SGD.accounted o r -> SGD.halted o r = true ->
  0 < SGD.maxIterations o /\ SGD.processed (SGD.r_trace r) = SGD.maxIterations o.
Proof.
  intros [Hs _] [Ha Hb]. unfold SGD.halted, SGD.exhausted. rewrite Hs. cbn.
  destruct (SGD.maxIterations o =? 0) eqn:E; [discriminate|]. cbn.
  apply N.eqb_neq in E. intros H. apply N.leb_le in H.
  split; [lia|]. specialize (Hb ltac:(lia)). lia.
Qed.

(** With room for all its samples under the limit, an epoch of such a run is
    a whole pass. *)
Lemma quiet_epoch_full (r : QRun) :
  1 <= SGD.batchSize o -> 1 <= numFunctions ->
  Reference.quiet Q r -> SGD.accounted o r ->
  SGD.r_points r + numFunctions <= SGD.maxIterations o ->
  let batches := SGD.epoch_batches (SGD.batchSize o) numFunctions in
  SGD.r_trace (SGD.epoch o numFunctions r) = rev batches ++ SGD.r_trace r
  /\ SGD.r_points (SGD.epoch o numFunctions r) = SGD.r_points r + numFunctions.
Proof.
  intros HB HN Hq Ha Hroom batches.
  pose proof (epoch_quiet r Hq) as Hq'.
  pose proof (epoch_accounted r Ha) as Ha'.
  assert (Hc : SGD.contiguous 0 batches numFunctions).
  { apply batches_from_contiguous; [exact HB|lia|lia]. }
  apply contiguous_processed in Hc.
  destruct Ha as [Ha _]. destruct Ha' as [Ha' Hb'].
  destruct (epoch_trace o numFunctions r HB) as [[_ Ht] | (Hx & _ & done & Ht & Hd & Hlt)].
  - fold batches in Ht. split; [exact Ht|].
    rewrite <- Ha', Ht, processed_app, processed_rev, Ha. lia.
  - exfalso.
    destruct Hq' as [Hs' _]. unfold SGD.halted, SGD.exhausted in Hx.
    rewrite Hs' in Hx. cbn in Hx.
    destruct (SGD.maxIterations o =? 0) eqn:E; [discriminate|]. cbn in Hx.
    apply N.leb_le in Hx. apply contiguous_processed in Hd.
    rewrite <- Ha', Ht, processed_app, processed_rev, Ha in Hx. lia.
Qed.

(** With a limit of [m] times the number of samples, such a run is [m]
    whole passes. *)
Lemma quiet_full_epochs m : forall (r : QRun),
  1 <= SGD.batchSize o -> 1 <= numFunctions ->
  Reference.quiet Q r -> SGD.accounted o r ->
  0 < SGD.maxIterations o ->
  SGD.r_points r + N.of_nat m * numFunctions = SGD.maxIterations o ->
  let batches := SGD.epoch_batches (SGD.batchSize o) numFunctions in
  exists r',
    SGD.epochs o numFunctions m r = Some r'
    /\ SGD.r_trace r' = rev (concat (repeat batches m)) ++ SGD.r_trace r.
Proof.
  induction m as [|m IH]; intros r HB HN Hq Ha Hmax Hp batches.
  - exists r. split; [|reflexivity]. apply epochs_halted.
    unfold SGD.halted, SGD.exhausted.
    destruct (SGD.maxIterations o =? 0) eqn:E; [apply N.eqb_eq in E; lia|].
    cbn. replace (SGD.maxIterations o <=? SGD.r_points r) with true
      by (symmetry; apply N.leb_le; lia).
    apply orb_true_r.
  - assert (Hh : SGD.halted o r = false).
    { destruct Hq as [Hs _]. unfold SGD.halted, SGD.exhausted. rewrite Hs. cbn.
      destruct (SGD.maxIterations o =? 0); [reflexivity|]. cbn.
      apply N.leb_gt. lia. }
    destruct (quiet_epoch_full r HB HN Hq Ha ltac:(lia)) as [Ht Hpts].
    destruct (IH (SGD.epoch o numFunctions r) HB HN (epoch_quiet r Hq)
                 (epoch_accounted r Ha) Hmax ltac:(lia)) as (r' & Hr' & Ht').
    exists r'. cbn [SGD.epochs]. rewrite Hh. split; [exact Hr'|].
    rewrite Ht', Ht. fold batches. cbn [repeat concat].
    now rewrite rev_app_distr, <- app_assoc.
Qed.

End QuietRuns.

(** * The result of a call *)
Section Result.
Context {U D F MatType GradType CB : Type}.
Context {A : ArmaType MatType}.
Context {FT : SeparableFunctionType F MatType GradType}.
Context {UP : UpdatePolicyType U MatType GradType}.
Context {DP : DecayPolicyType D MatType GradType}.
Context {CT : CallbackType CB MatType GradType}.
Variable o : SGD.t U D.
Variable function : F.
Variable iterate : MatType.
Variable callbacks : list CB.

Abbreviation FRun := (@SGD.Run U D F MatType CB A).

Lemma start_fields :
  let r0 := SGD.start o function iterate callbacks in
  SGD.r_points r0 = 0 /\ SGD.r_trace r0 = [] /\ SGD.r_epoch r0 = 0
  /\ SGD.r_callbacks r0
     = map (fun c => fst (BeginOptimization c iterate)) callbacks
  /\ SGD.r_stop r0 = existsb (fun c => snd (BeginOptimization c iterate)) callbacks.
Proof. cbv zeta. unfold SGD.start. rewrite notify_unfold. cbn. repeat split. Qed.

(** A call with callbacks that never ask starts with no request pending. *)
Lemma start_quiet (Q : CB -> Prop) :
  Forall Q callbacks -> Reference.never_asks Q ->
  Reference.quiet Q (SGD.start o function iterate callbacks).
Proof.
  intros HQ Hnever. destruct start_fields as (_ & _ & _ & Hc & Hs).
  unfold Reference.quiet. rewrite Hc, Hs.
  destruct (dispatch_quiet Q (fun c => BeginOptimization c iterate) callbacks)
    as [H1 H2]; [intros c Hq; apply (Hnever c Hq)|exact HQ|].
  now split.
Qed.

(** A run stops in one state, however far the loop is unfolded. *)
Lemma run_unique fuel fuel' (r r' : FRun) :
  SGD.run fuel o function iterate callbacks = Some r ->
  SGD.run fuel' o function iterate callbacks = Some r' ->
  r = r'.
Proof.
  unfold SGD.run. intros H H'.
  apply (epochs_more_fuel o _ fuel fuel') in H.
  apply (epochs_more_fuel o _ fuel' fuel) in H'.
  rewrite Nat.add_comm in H'. congruence.
Qed.

(** What a run that has stopped holds, in terms of the batches alone. *)
Lemma run_result fuel (r : FRun) :
  SGD.check o function iterate = None ->
  SGD.run fuel o function iterate callbacks = Some r ->
  let N := Objective.NumFunctions function in
  let batches := SGD.epoch_batches (SGD.batchSize o) N in
  exists k done stop,
    rev (SGD.r_trace r) = concat (repeat batches k) ++ done
    /\ SGD.contiguous 0 done stop /\ (done = [] \/ stop < N)
    /\ let finish := Reference.replay (SGD.shuffle o)
                       (Reference.initial o function iterate)
                       (concat (repeat batches k) ++ done) in
       SGD.r_iterate r = Reference.s_iterate finish
       /\ SGD.r_update r = Reference.s_update finish
       /\ SGD.r_decay r = Reference.s_decay finish
       /\ SGD.final_objective o N r
          = Reference.value o (SGD.r_function r) finish batches
       /\ (0 < SGD.maxIterations o ->
           SGD.processed (concat (repeat batches k) ++ done) <= SGD.maxIterations o)
       /\ (forall Q : CB -> Prop,
           Forall Q callbacks -> Reference.never_asks Q ->
           (forall a b : elem_type, elem_within a b (SGD.tolerance o) = false) ->
           0 < SGD.maxIterations o
           /\ SGD.processed (concat (repeat batches k) ++ done) = SGD.maxIterations o).
Proof.
  intros Hcheck Hrun N batches.
  destruct (check_passes o function iterate Hcheck) as [HB HN].
  destruct start_fields as (Hp0 & Ht0 & He0 & Hc0 & Hs0).
  pose proof (run_between o function iterate callbacks fuel r Hcheck Hrun)
    as (Hag & Hest & _).
  unfold SGD.run in Hrun.
  destruct (epochs_trace o N fuel _ _ HB Hrun) as (k & done & stop & _ & Ht & Hc & Hd).
  rewrite Ht0 in Ht. cbn [rev app] in Ht. fold batches in Ht.
  assert (Hacc : SGD.accounted o r).
  { eapply epochs_accounted; [|exact Hrun].
    unfold SGD.accounted. rewrite Hp0, Ht0. cbn. split; [reflexivity|lia]. }
  exists k, done, stop. split; [exact Ht|]. split; [exact Hc|]. split; [exact Hd|].
  cbv zeta. unfold Reference.agrees in Hag. rewrite Ht in Hag, Hest.
  destruct Hag as (Hi & Hu & Hdc & _).
  split; [exact Hi|]. split; [exact Hu|]. split; [exact Hdc|]. split; [|split].
  - unfold SGD.final_objective, Reference.value.
    destruct (SGD.exactObjective o) eqn:E.
    + unfold SGD.full_objective, Reference.exact. fold batches. now rewrite Hi.
    + now apply Hest.
  - intros Hmax. destruct Hacc as [Ha Hb].
    rewrite <- Ht, processed_rev, Ha. now apply Hb.
  - intros Q HQ Hnever Htol.
    rewrite <- Ht, processed_rev.
    apply (quiet_halted_at_limit o Q r).
    + eapply (epochs_quiet o N Q Hnever Htol); [|exact Hrun].
      now apply start_quiet.
    + exact Hacc.
    + eapply epochs_stops_halted. exact Hrun.
Qed.

End Result.



(** * Batch partitioning *)

Lemma count_occ_repeat_batches (batches : list (N * N)) (i : N) (m : nat) :
  count_occ N.eq_dec (flat_map SGD.indices (concat (repeat batches m))) i
  = (m * count_occ N.eq_dec (flat_map SGD.indices batches) i)%nat.
Proof.
  induction m as [|m IH]; cbn [repeat concat]; [reflexivity|].
  rewrite flat_map_app, count_occ_app, IH. cbn. reflexivity.
Qed.



(** * Early stop, from the callbacks' side *)
Section FirstStep.
Context {U D F MatType GradType CB : Type}.
Context {A : ArmaType MatType}.
Context {FT : SeparableFunctionType F MatType GradType}.
Context {UP : UpdatePolicyType U MatType GradType}.
Context {DP : DecayPolicyType D MatType GradType}.
Context {CT : CallbackType CB MatType GradType}.
Variable o : SGD.t U D.
Variable numFunctions : size_t.

Abbreviation ARun := (@SGD.Run U D F MatType CB A).

(** Some registered callback asks, or none does. *)
Lemma asks_existsb (hook : CB -> CB * bool) (callbacks : list CB) :
  (exists c, In c callbacks /\ snd (hook c) = true)
  <-> existsb (fun c => snd (hook c)) callbacks = true.
Proof. symmetry. apply existsb_exists. Qed.

(** An epoch whose first step raises the flag is that step, followed by the
    epoch boundary if the step was the whole pass. *)
Lemma epoch_first_step (r : ARun) :
  1 <= SGD.batchSize o -> 1 <= numFunctions ->
  let r1 := SGD.epoch_begin o r in
  let size := N.min (SGD.batchSize o) numFunctions in
  SGD.halted o r1 = false ->
  SGD.r_stop (SGD.step o 0 size r1) = true ->
  SGD.epoch o numFunctions r
  = (if SGD.r_position (SGD.step o 0 size r1) =? numFunctions
     then SGD.epoch_end o numFunctions (SGD.step o 0 size r1)
     else SGD.step o 0 size r1).
Proof.
  intros HB HN r1 size Hh Hs. unfold SGD.epoch.
  change (SGD.epoch_begin o r) with r1.
  assert (Ebs : exists rest,
             SGD.epoch_batches (SGD.batchSize o) numFunctions = (0, size) :: rest).
  { unfold SGD.epoch_batches.
    destruct (N.to_nat numFunctions) as [|n] eqn:En; [lia|].
    cbn [SGD.batches_from].
    destruct (numFunctions <=? 0) eqn:E; [apply N.leb_le in E; lia|].
    rewrite N.sub_0_r. eexists. reflexivity. }
  destruct Ebs as [rest Ebs]. rewrite Ebs.
  now rewrite (run_batches_stop o 0 size rest r1 Hh Hs).
Qed.

(** At an epoch boundary the objective of the run is that of the epoch. *)
Lemma final_objective_epoch_end (r : ARun) :
  SGD.final_objective o numFunctions (SGD.epoch_end o numFunctions r)
  = SGD.epoch_objective o numFunctions r.
Proof.
  rewrite epoch_end_unfold. cbv zeta.
  unfold SGD.final_objective, SGD.last_estimate, SGD.epoch_objective. cbn.
  destruct (SGD.exactObjective o); reflexivity.
Qed.

End FirstStep.

(** C6.  Early stop, for a call that passes the configuration check.  A
    dispatch point runs the hook of every registered callback, in
    registration order, and reports a stop request as soon as any of them
    makes one; the stop flag after a step is the flag before it raised by any
    request of any callback at the three dispatch points of the step (its
    start, the computed gradient, its end), and is never lowered.  If no
    callback asks to stop as the optimization and the first epoch begin, and
    some registered callback does at a dispatch point of the first step, then
    [Optimize] returns after exactly one step: one batch was processed, the
    iterate handed back is the starting point after one application of the
    update policy to the gradient of that batch, and the value returned is
    the objective as it then stands: with [exactObjective] the sum of the
    losses of the batches of one pass at that iterate, otherwise the loss of
    the one batch.  If some callback asks to stop before the first step, no
    step runs: the iterate handed back is the starting point and the estimate
    is empty.  In general a run whose flag is up executes no further step,
    neither in its epoch nor in a later one, and an epoch boundary leaves the
    flag up and the iterate as it is; a step at which some callback
    asks to stop is the last one of its pass; and whenever [Optimize]
    returns, the value and the iterate are those of the batches processed up
    to the stop. *)
Theorem stop_request_ends_run :
  forall (U D F MatType GradType CB : Type) (A : ArmaType MatType)
         (FT : SeparableFunctionType F MatType GradType)
         (UP : UpdatePolicyType U MatType GradType)
         (DP : DecayPolicyType D MatType GradType)
         (CT : CallbackType CB MatType GradType)
         (o : SGD.t U D) (function : F) (iterate : MatType)
         (callbacks : list CB),
    SGD.check o function iterate = None ->
    let N := Objective.NumFunctions function in
    let asks (hook : CB -> CB * bool) (registered : list CB) :=
      exists c, In c registered /\ snd (hook c) = true in
    let after (hook : CB -> CB * bool) (registered : list CB) :=
      map (fun c => fst (hook c)) registered in
    let cbs1 := after (fun c => BeginOptimization c iterate) callbacks in
    let cbs2 := after (fun c => BeginEpoch c iterate 0) cbs1 in
    let f1 := if SGD.shuffle o then Objective.Shuffle function else function in
    let u0 := if SGD.resetPolicy o
              then Initialize (SGD.updatePolicy o) (n_rows iterate) (n_cols iterate)
              else SGD.updatePolicy o in
    let size := if SGD.maxIterations o =? 0 then N.min (SGD.batchSize o) N
                else N.min (N.min (SGD.batchSize o) N) (SGD.maxIterations o) in
    let g := Objective.Gradient f1 iterate 0 size in
    let ux := Update u0 iterate (SGD.stepSize o) g in
    let cbs3 := after (fun c => BeginStep c iterate) cbs2 in
    let cbs4 := after (fun c => GradientComputed c iterate g) cbs3 in
    (~ asks (fun c => BeginOptimization c iterate) callbacks ->
     ~ asks (fun c => BeginEpoch c iterate 0) cbs1 ->
     asks (fun c => BeginStep c iterate) cbs2
     \/ asks (fun c => GradientComputed c iterate g) cbs3
     \/ asks (fun c => EndStep c (snd ux)) cbs4 ->
     forall fuel, exists v st r batches,
       SGD.Optimize (S fuel) o function iterate callbacks = Some (Returned v st)
       /\ SGD.run (S fuel) o function iterate callbacks = Some r
       /\ SGD.r_trace r = [(0, size)]
       /\ st_iterate st = snd ux
       /\ SGD.updatePolicy (st_self st) = fst ux
       /\ st_function st = f1
       /\ st_callbacks st
          = (let ended := after (fun c => EndStep c (snd ux)) cbs4 in
             if size =? N then after (fun c => EndEpoch c (snd ux) 0 v) ended
             else ended)
       /\ SGD.contiguous 0 batches N
       /\ SGD.full_but_last (SGD.batchSize o) batches
       /\ v = (if SGD.exactObjective o
               then Reference.exact f1 (snd ux) batches
               else elem_mean
                      (elem_add elem_zero (Objective.Evaluate f1 iterate 0 size)) 1))
    /\ (asks (fun c => BeginOptimization c iterate) callbacks
        \/ asks (fun c => BeginEpoch c iterate 0) cbs1 ->
        forall fuel, exists v st r batches,
          SGD.Optimize (S fuel) o function iterate callbacks = Some (Returned v st)
          /\ SGD.run (S fuel) o function iterate callbacks = Some r
          /\ SGD.r_trace r = []
          /\ st_iterate st = iterate
          /\ SGD.updatePolicy (st_self st) = u0
          /\ (asks (fun c => BeginOptimization c iterate) callbacks ->
              st_function st = function /\ st_callbacks st = cbs1)
          /\ (~ asks (fun c => BeginOptimization c iterate) callbacks ->
              st_function st = f1 /\ st_callbacks st = cbs2)
          /\ SGD.contiguous 0 batches N
          /\ SGD.full_but_last (SGD.batchSize o) batches
          /\ v = (if SGD.exactObjective o
                  then Reference.exact (st_function st) iterate batches
                  else elem_zero))
    /\ (forall (hook : CB -> CB * bool) (registered : list CB),
          SGD.dispatch hook registered
          = (after hook registered,
             existsb (fun c => snd (hook c)) registered)
          /\ (snd (SGD.dispatch hook registered) = true <-> asks hook registered))
    /\ (forall hook (r : @SGD.Run U D F MatType CB A),
          SGD.r_stop (SGD.notify hook r) = true
          <-> SGD.r_stop r = true \/ asks hook (SGD.r_callbacks r))
    /\ (forall (r : @SGD.Run U D F MatType CB A) start size',
          let x := SGD.r_iterate r in
          let g' := Objective.Gradient (SGD.r_function r) x start
                                       (SGD.clamp o r size') in
          let x' := snd (Update (SGD.r_update r) x (SGD.r_stepSize r) g') in
          let begun := after (fun c => BeginStep c x) (SGD.r_callbacks r) in
          let computed := after (fun c => GradientComputed c x g') begun in
          (SGD.r_stop (SGD.step o start size' r) = true
           <-> SGD.r_stop r = true
               \/ asks (fun c => BeginStep c x) (SGD.r_callbacks r)
               \/ asks (fun c => GradientComputed c x g') begun
               \/ asks (fun c => EndStep c x') computed)
          /\ (SGD.halted o r = false ->
              asks (fun c => BeginStep c x) (SGD.r_callbacks r)
              \/ asks (fun c => GradientComputed c x g') begun
              \/ asks (fun c => EndStep c x') computed ->
              forall rest,
                SGD.run_batches o ((start, size') :: rest) r
                = SGD.step o start size' r))
    /\ (forall (r : @SGD.Run U D F MatType CB A),
          SGD.r_stop r = true ->
          (forall batches, SGD.run_batches o batches r = r)
          /\ (forall fuel, SGD.epochs o N fuel r = Some r)
          /\ SGD.r_stop (SGD.epoch_end o N r) = true
          /\ SGD.r_trace (SGD.epoch_end o N r) = SGD.r_trace r
          /\ SGD.r_iterate (SGD.epoch_end o N r) = SGD.r_iterate r)
    /\ (forall fuel out,
          SGD.Optimize fuel o function iterate callbacks = Some out ->
          exists v st r batches k done stop,
            out = Returned v st
            /\ SGD.run fuel o function iterate callbacks = Some r
            /\ SGD.halted o r = true
            /\ rev (SGD.r_trace r) = concat (repeat batches k) ++ done
            /\ SGD.contiguous 0 batches N
            /\ SGD.full_but_last (SGD.batchSize o) batches
            /\ SGD.contiguous 0 done stop
            /\ (done = [] \/ stop < N)
            /\ let finish :=
                 Reference.replay (SGD.shuffle o)
                   (Reference.initial o function iterate)
                   (concat (repeat batches k) ++ done) in
               st_iterate st = Reference.s_iterate finish
               /\ SGD.updatePolicy (st_self st) = Reference.s_update finish
               /\ v = (if SGD.exactObjective o
                       then Reference.exact (st_function st) (st_iterate st) batches
                       else Reference.estimate finish)).
Proof.
  intros U D F MatType GradType CB A FT UP DP CT o function iterate callbacks
         Hcheck N asks after cbs1 cbs2 f1 u0 size g ux cbs3 cbs4.
  destruct (check_passes o function iterate Hcheck) as [HB HN]. fold N in HN.
  assert (Hpart : SGD.contiguous 0 (SGD.epoch_batches (SGD.batchSize o) N) N
                  /\ SGD.full_but_last (SGD.batchSize o)
                       (SGD.epoch_batches (SGD.batchSize o) N)).
  { split; [apply batches_from_contiguous; [exact HB|lia|lia]|].
    apply batches_from_sizes; [exact HB|lia]. }
  destruct Hpart as [Hpc Hpf].
  set (d0 := if SGD.resetPolicy o
             then DecayInitialize (SGD.decayPolicy o) (n_rows iterate) (n_cols iterate)
             else SGD.decayPolicy o).
  set (q0 := existsb (fun c => snd (BeginOptimization c iterate)) callbacks).
  set (q1 := existsb (fun c => snd (BeginEpoch c iterate 0)) cbs1).
  set (r0 := SGD.start o function iterate callbacks).
  assert (E0 : r0 = SGD.mkRun iterate function cbs1 u0 d0 (SGD.stepSize o)
                      0 0 0 elem_zero 0 None q0 []).
  { subst r0. unfold SGD.start. rewrite notify_unfold. reflexivity. }
  set (r1 := SGD.epoch_begin o r0).
  assert (E1 : r1 = SGD.mkRun iterate f1 cbs2 u0 d0 (SGD.stepSize o)
                      0 0 0 elem_zero 0 None (q0 || q1) []).
  { subst r1. rewrite epoch_begin_unfold, E0. reflexivity. }
  assert (Hfresh : forall r : @SGD.Run U D F MatType CB A,
             SGD.r_points r = 0 -> SGD.exhausted o r = false).
  { intros r Hp. unfold SGD.exhausted. rewrite Hp.
    destruct (SGD.maxIterations o =? 0) eqn:E; [reflexivity|]. cbn.
    apply N.eqb_neq in E. apply N.leb_gt. lia. }
  assert (Hopt : forall fuel r,
             SGD.run fuel o function iterate callbacks = Some r ->
             SGD.Optimize fuel o function iterate callbacks
             = Some (Returned (SGD.final_objective o N r)
                       (mkStore (SGD.after o r) (SGD.r_function r) (SGD.r_iterate r)
                                (SGD.r_callbacks r)))).
  { intros fuel r Hrun. unfold SGD.Optimize. now rewrite Hcheck, Hrun. }
  assert (Hstep : forall (r : @SGD.Run U D F MatType CB A) start size',
             let x := SGD.r_iterate r in
             let g' := Objective.Gradient (SGD.r_function r) x start
                                          (SGD.clamp o r size') in
             let x' := snd (Update (SGD.r_update r) x (SGD.r_stepSize r) g') in
             let begun := after (fun c => BeginStep c x) (SGD.r_callbacks r) in
             let computed := after (fun c => GradientComputed c x g') begun in
             SGD.r_stop (SGD.step o start size' r) = true
             <-> SGD.r_stop r = true
                 \/ asks (fun c => BeginStep c x) (SGD.r_callbacks r)
                 \/ asks (fun c => GradientComputed c x g') begun
                 \/ asks (fun c => EndStep c x') computed).
  { intros r start size' x g' x' begun computed.
    rewrite step_unfold. cbv zeta. cbn [SGD.r_stop].
    subst asks. cbv beta. rewrite !asks_existsb, !orb_true_iff.
    subst begun computed after x' g' x. cbv beta. tauto. }
  split; [|split; [|split; [|split; [|split; [|split]]]]].
  - intros Hno0 Hno1 Hask fuel.
    assert (Hq0 : q0 = false).
    { apply not_true_iff_false. intros E. apply Hno0. now apply asks_existsb. }
    assert (Hq1 : q1 = false).
    { apply not_true_iff_false. intros E. apply Hno1. now apply asks_existsb. }
    rewrite Hq0 in E0. rewrite Hq0, Hq1 in E1. cbn [orb] in E1.
    assert (Hh0 : SGD.halted o r0 = false).
    { unfold SGD.halted. rewrite Hfresh by (now rewrite E0). now rewrite E0. }
    assert (Hh1 : SGD.halted o r1 = false).
    { unfold SGD.halted. rewrite Hfresh by (now rewrite E1). now rewrite E1. }
    assert (Hclamp : SGD.clamp o r1 (N.min (SGD.batchSize o) N) = size).
    { unfold SGD.clamp. rewrite E1. cbn [SGD.r_points]. subst size.
      destruct (SGD.maxIterations o =? 0); [reflexivity|]. now rewrite N.sub_0_r. }
    assert (Hstop : SGD.r_stop (SGD.step o 0 (N.min (SGD.batchSize o) N) r1) = true).
    { apply Hstep. right. rewrite Hclamp. rewrite E1. cbn [SGD.r_iterate SGD.r_function
        SGD.r_update SGD.r_stepSize SGD.r_callbacks]. exact Hask. }
    assert (Est : SGD.step o 0 (N.min (SGD.batchSize o) N) r1
                  = SGD.mkRun (snd ux) f1
                      (after (fun c => EndStep c (snd ux)) cbs4)
                      (fst ux)
                      (fst (DecayUpdate d0 (snd ux) (SGD.stepSize o) g))
                      (snd (DecayUpdate d0 (snd ux) (SGD.stepSize o) g))
                      size size 0
                      (elem_add elem_zero (Objective.Evaluate f1 iterate 0 size))
                      1 None true [(0, size)]).
    { pose proof Hstop as Hs. rewrite step_unfold in Hs |- *. cbv zeta in Hs |- *.
      rewrite Hclamp in Hs |- *. rewrite E1 in Hs |- *.
      cbn [SGD.r_iterate SGD.r_function SGD.r_update SGD.r_stepSize
        SGD.r_callbacks SGD.r_decay SGD.r_points SGD.r_epoch SGD.r_lossSum
        SGD.r_batches SGD.r_objective SGD.r_stop SGD.r_trace] in Hs |- *.
      rewrite Hs. reflexivity. }
    set (r2 := SGD.step o 0 (N.min (SGD.batchSize o) N) r1) in *.
    assert (Eep : SGD.epoch o N r0
                  = if size =? N then SGD.epoch_end o N r2 else r2).
    { rewrite (epoch_first_step o N r0 HB HN Hh1 Hstop). fold r1 r2.
      now rewrite Est at 1. }
    assert (Hs2 : SGD.r_stop (SGD.epoch o N r0) = true).
    { rewrite Eep. destruct (size =? N); [now apply epoch_end_stop_mono|exact Hstop]. }
    assert (Hrun : SGD.run (S fuel) o function iterate callbacks
                   = Some (SGD.epoch o N r0)).
    { unfold SGD.run. fold N r0. cbn [SGD.epochs].
      rewrite Hh0. apply epochs_halted. now apply stopped_is_halted. }
    exists (SGD.final_objective o N (SGD.epoch o N r0)),
           (mkStore (SGD.after o (SGD.epoch o N r0)) (SGD.r_function (SGD.epoch o N r0))
                    (SGD.r_iterate (SGD.epoch o N r0))
                    (SGD.r_callbacks (SGD.epoch o N r0))),
           (SGD.epoch o N r0), (SGD.epoch_batches (SGD.batchSize o) N).
    split; [now apply Hopt|]. split; [exact Hrun|].
    cbn [st_iterate st_self st_function st_callbacks].
    rewrite Eep. destruct (size =? N).
    + rewrite final_objective_epoch_end, epoch_end_unfold. cbv zeta.
      cbn [SGD.r_trace SGD.r_iterate SGD.after SGD.updatePolicy
           SGD.r_update SGD.r_function SGD.r_callbacks].
      rewrite Est.
      cbn [SGD.r_trace SGD.r_iterate SGD.after SGD.updatePolicy
           SGD.r_update SGD.r_function SGD.r_callbacks SGD.r_epoch].
      repeat (split; [first [reflexivity|assumption]|]).
      unfold SGD.epoch_objective, SGD.full_objective, Reference.exact.
      cbn. reflexivity.
    + rewrite Est. cbn [SGD.r_trace SGD.r_iterate SGD.after SGD.updatePolicy
                        SGD.r_update SGD.r_function SGD.r_callbacks].
      repeat (split; [first [reflexivity|assumption]|]).
      unfold SGD.final_objective, SGD.last_estimate, SGD.full_objective,
             Reference.exact.
      cbn. reflexivity.
  - intros Hask fuel.
    assert (Hq : q0 = true \/ (q0 = false /\ q1 = true)).
    { destruct q0 eqn:Hq0; [now left|right]. split; [reflexivity|].
      destruct Hask as [H|H]; apply asks_existsb in H.
      - fold q0 in H. congruence.
      - exact H. }
    destruct Hq as [Hq0 | [Hq0 Hq1]].
    + rewrite Hq0 in E0.
      assert (Hrun : SGD.run (S fuel) o function iterate callbacks = Some r0).
      { unfold SGD.run. fold N r0. apply epochs_halted.
        apply stopped_is_halted. now rewrite E0. }
      exists (SGD.final_objective o N r0),
             (mkStore (SGD.after o r0) (SGD.r_function r0) (SGD.r_iterate r0)
                      (SGD.r_callbacks r0)),
             r0, (SGD.epoch_batches (SGD.batchSize o) N).
      split; [now apply Hopt|]. split; [exact Hrun|].
      cbn [st_iterate st_self st_function st_callbacks]. rewrite E0.
      cbn [SGD.r_trace SGD.r_iterate SGD.after SGD.updatePolicy
           SGD.r_update SGD.r_function SGD.r_callbacks].
      split; [reflexivity|]. split; [reflexivity|]. split; [reflexivity|].
      split; [intros _; split; reflexivity|]. split.
      { intros Hno. exfalso. apply Hno. now apply asks_existsb. }
      split; [exact Hpc|]. split; [exact Hpf|].
      unfold SGD.final_objective, SGD.last_estimate, SGD.full_objective,
             Reference.exact.
      cbn. reflexivity.
    + rewrite Hq0 in E0. rewrite Hq0, Hq1 in E1. cbn [orb] in E1.
      assert (Hh0 : SGD.halted o r0 = false).
      { unfold SGD.halted. rewrite Hfresh by (now rewrite E0). now rewrite E0. }
      assert (Hs1 : SGD.r_stop r1 = true) by (now rewrite E1).
      assert (Eep : SGD.epoch o N r0 = r1).
      { unfold SGD.epoch. fold r1.
        rewrite (run_batches_halted o _ r1 (stopped_is_halted o r1 Hs1)).
        rewrite E1 at 1. cbn [SGD.r_position].
        destruct (0 =? N) eqn:E; [apply N.eqb_eq in E; lia|reflexivity]. }
      assert (Hrun : SGD.run (S fuel) o function iterate callbacks = Some r1).
      { unfold SGD.run. fold N r0. cbn [SGD.epochs]. rewrite Hh0, Eep.
        apply epochs_halted. now apply stopped_is_halted. }
      exists (SGD.final_objective o N r1),
             (mkStore (SGD.after o r1) (SGD.r_function r1) (SGD.r_iterate r1)
                      (SGD.r_callbacks r1)),
             r1, (SGD.epoch_batches (SGD.batchSize o) N).
      split; [now apply Hopt|]. split; [exact Hrun|].
      cbn [st_iterate st_self st_function st_callbacks]. rewrite E1.
      cbn [SGD.r_trace SGD.r_iterate SGD.after SGD.updatePolicy
           SGD.r_update SGD.r_function SGD.r_callbacks].
      split; [reflexivity|]. split; [reflexivity|]. split; [reflexivity|].
      split.
      { intros H. apply asks_existsb in H. fold q0 in H. congruence. }
      split; [intros _; split; reflexivity|].
      split; [exact Hpc|]. split; [exact Hpf|].
      unfold SGD.final_objective, SGD.last_estimate, SGD.full_objective,
             Reference.exact.
      cbn. reflexivity.
  - intros hook registered. rewrite dispatch_spec. split; [reflexivity|].
    cbn [snd]. symmetry. apply asks_existsb.
  - intros hook r. rewrite notify_unfold. cbn [SGD.r_stop].
    rewrite orb_true_iff. subst asks. cbv beta. now rewrite asks_existsb.
  - intros r start size' x g' x' begun computed. split; [apply Hstep|].
    intros Hh Hask rest. apply run_batches_stop; [exact Hh|].
    apply Hstep. now right.
  - intros r Hs. split; [|split; [|split; [|split]]].
    + intros batches. apply run_batches_halted. now apply stopped_is_halted.
    + intros fuel. apply epochs_halted. now apply stopped_is_halted.
    + now apply epoch_end_stop_mono.
    + now rewrite epoch_end_unfold.
    + now rewrite epoch_end_unfold.
  - intros fuel out Hout.
    destruct (SGD.run fuel o function iterate callbacks) as [r|] eqn:Hrun.
    2:{ unfold SGD.Optimize in Hout. rewrite Hcheck, Hrun in Hout. discriminate. }
    rewrite (Hopt fuel r Hrun) in Hout. inversion Hout; subst out. clear Hout.
    destruct (run_result o function iterate callbacks fuel r Hcheck Hrun)
      as (k & done & stop & Ht & Hc & Hd & Hi & Hu & _ & Hv & _).
    exists (SGD.final_objective o N r),
           (mkStore (SGD.after o r) (SGD.r_function r) (SGD.r_iterate r)
                    (SGD.r_callbacks r)),
           r, (SGD.epoch_batches (SGD.batchSize o) N), k, done, stop.
    split; [reflexivity|]. split; [reflexivity|]. split.
    { unfold SGD.run in Hrun. eapply epochs_stops_halted. exact Hrun. }
    split; [exact Ht|]. split; [exact Hpc|]. split; [exact Hpf|].
    split; [exact Hc|]. split; [exact Hd|].
    cbv zeta. cbn [st_iterate st_self st_function SGD.after SGD.updatePolicy].
    split; [exact Hi|]. split; [exact Hu|].
    fold N in Hv. rewrite Hv. unfold Reference.value. now rewrite Hi.
Qed.

(** The counting callback with limit one asks to stop at the end of the first
    step: by the theorem the call returns after that one step, a batch of two
    samples, with the loss of that batch. *)
Lemma stop_request_ends_run_witness :
  SGD.check (Padam.optimizer Demo.small) (Demo.SphereFunction 4) Demo.x0 = None
  /\ exists v st,
       SGD.Optimize 3 (Padam.optimizer Demo.small) (Demo.SphereFunction 4) Demo.x0
                    [Demo.mkCounter 1 0] = Some (Returned v st)
       /\ v = 5%float
       /\ st_iterate st
          = snd (Update (Initialize (SGD.updatePolicy (Padam.optimizer Demo.small)) 4 1)
                        Demo.x0 0.5%float
                        (Objective.Gradient (Demo.SphereFunction 4) Demo.x0 0 2)).
Proof.
  split; [reflexivity|].
  destruct (proj1 (stop_request_ends_run
                     (PadamUpdate.t Demo.moments) NoDecay.t Demo.sphere Demo.vec
                     Demo.vec Demo.counter Demo.arma Demo.sphere_function
                     PadamUpdate.policy NoDecay.decay Demo.counter_callback
                     (Padam.optimizer Demo.small) (Demo.SphereFunction 4) Demo.x0
                     [Demo.mkCounter 1 0] eq_refl)
                  ltac:(intros (c & _ & H); discriminate H)
                  ltac:(intros (c & _ & H); discriminate H)
                  ltac:(right; right; exists (Demo.mkCounter 1 0);
                        split; [left; reflexivity|reflexivity])
                  2%nat) as (v & st & r & batches & Hopt & _ & _ & Hi & _ & _ & _ & _ & _ & Hv).
  exists v, st. split; [exact Hopt|]. split; [|exact Hi].
  rewrite Hv. vm_compute. reflexivity.
Defined.

(** * The accessor pairs of the facade as a whole *)

(** X1.  Assignments to two different tunables of a Padam object commute:
    the object after [p.A() = v; p.B() = w;] is the object after
    [p.B() = w; p.A() = v;], accumulators included. *)
Theorem setters_commute :
  forall (Moments : Type) (a b : Tunable.t)
         (v : Tunable.type a) (w : Tunable.type b) (p : Padam.t Moments),
    a <> b ->
    Tunable.set a v (Tunable.set b w p) = Tunable.set b w (Tunable.set a v p).
Proof.
  intros Moments a b v w p H.
  destruct a, b; try (exfalso; apply H; reflexivity); reflexivity.
Qed.

(** The step size and the first decay rate of a default optimizer, set in
    either order. *)
Lemma setters_commute_witness :
  Tunable.StepSize <> Tunable.Beta1
  /\ Tunable.set Tunable.StepSize 0.01%float
       (Tunable.set Tunable.Beta1 0.5%float (@Padam.Padam_default unit))
     = Tunable.set Tunable.Beta1 0.5%float
         (Tunable.set Tunable.StepSize 0.01%float (@Padam.Padam_default unit)).
Proof.
  split; [discriminate|].
  apply (setters_commute unit Tunable.StepSize Tunable.Beta1). discriminate.
Defined.

(** X2.  Each accessor pair is a lens on the Padam object: a second
    assignment to a tunable overwrites the first, assigning a tunable the
    value it has changes nothing, and no assignment touches the accumulators
    of the update policy (so a tunable can be changed between two calls
    without losing what the policy has accumulated). *)
Theorem setters_overwrite_and_keep_accumulators :
  forall (Moments : Type) (a : Tunable.t) (v w : Tunable.type a)
         (p : Padam.t Moments),
    Tunable.set a v (Tunable.set a w p) = Tunable.set a v p
    /\ Tunable.set a (Tunable.get a p) p = p
    /\ Tunable.accumulators (Tunable.set a v p) = Tunable.accumulators p.
Proof.
  intros Moments a v w [[s b m t sh [e b1 b2 pa mo] d r x]].
  destruct a; repeat split; reflexivity.
Qed.

(** X3.  The eleven accessors and the accumulators determine a Padam object:
    two objects that read the same and hold the same accumulators are equal,
    and an object without accumulators is the one the constructor builds from
    what its accessors read. *)
Theorem accessors_determine_object :
  forall (Moments : Type) (p q : Padam.t Moments),
    Padam.tunables p = Padam.tunables q ->
    Tunable.accumulators p = Tunable.accumulators q ->
    p = q /\ (Tunable.accumulators p = None -> Tunable.rebuild p = q).
Proof.
  intros Moments [[s b m t sh [e b1 b2 pa mo] [] r x]]
         [[s' b' m' t' sh' [e' b1' b2' pa' mo'] [] r' x']] HT HA.
  unfold Tunable.accumulators in *. cbn in HA.
  cbv in HT. inversion HT; subst. split; [reflexivity|].
  cbn. intros E. subst. reflexivity.
Qed.

(** A default optimizer whose step size was assigned its own value, against
    the default optimizer. *)
Lemma accessors_determine_object_witness :
  Padam.tunables (Padam.set_StepSize 0.001%float (@Padam.Padam_default unit))
  = Padam.tunables (@Padam.Padam_default unit)
  /\ Tunable.rebuild (Padam.set_StepSize 0.001%float (@Padam.Padam_default unit))
     = @Padam.Padam_default unit.
Proof.
  split; [reflexivity|].
  exact (proj2 (accessors_determine_object unit
                  (Padam.set_StepSize 0.001%float Padam.Padam_default)
                  Padam.Padam_default eq_refl eq_refl) eq_refl).
Defined.

(** * The sphere test *)

(** A double compares equal to zero exactly when it is one of the two
    zeros. *)
Lemma eqb_zero_iff (x : float) :
  PrimFloat.eqb x 0%float = true <-> x = zero \/ x = neg_zero.
Proof.
  split.
  - intros H. rewrite FloatAxioms.eqb_spec in H.
    rewrite <- (SF2Prim_Prim2SF x).
    destruct (Prim2SF x) as [[]|[]| |[] m e]; cbn in H; try discriminate H.
    + right. reflexivity.
    + left. reflexivity.
  - intros [E|E]; subst x; reflexivity.
Qed.

(** Every double below zero, minus infinity included, is at most 1e-3. *)
Lemma negative_is_small (c : float) :
  PrimFloat.ltb c 0%float = true -> PrimFloat.leb c 1e-3%float = true.
Proof.
  rewrite ltb_spec, leb_spec.
  let z := eval vm_compute in (Prim2SF 0%float) in
  replace (Prim2SF 0%float) with z by (vm_compute; reflexivity).
  let s := eval vm_compute in (Prim2SF 1e-3%float) in
  replace (Prim2SF 1e-3%float) with s by (vm_compute; reflexivity).
  destruct (Prim2SF c) as [[]|[]| |[] m e]; intros H;
    try (vm_compute in H; discriminate H); reflexivity.
Qed.

(** The loop of lines 31-33 runs to its end exactly when each index it
    visits is inside the vector and holds a value that compares [<= 1e-3]. *)
Lemma require_coordinates_passed coords count : forall j,
  PSOTest.require_coordinates coords j count = PSOTest.Passed
  <-> (forall i, (j <= i < j + count)%nat ->
         exists c, nth_error coords i = Some c
                   /\ PrimFloat.leb c 1e-3%float = true).
Proof.
  induction count as [|count IH]; intros j; cbn.
  - split; [intros _ i Hi; lia|reflexivity].
  - split.
    + intros H i Hi.
      destruct (nth_error coords j) as [c|] eqn:E; [|discriminate].
      destruct (PrimFloat.leb c 1e-3%float) eqn:L; [|discriminate].
      destruct (Nat.eq_dec i j) as [->|Hne]; [now exists c|].
      apply (proj1 (IH (S j)) H). lia.
    + intros H.
      destruct (H j ltac:(lia)) as (c & E & L). rewrite E, L.
      apply IH. intros i Hi. apply H. lia.
Qed.

(** X4.  The sphere test passes exactly when the optimizer returns a value
    that does not compare equal to zero, the objective evaluated at the point
    it leaves compares [<= 1e-5], and each of the first four coordinates of
    that point exists and compares [<= 1e-3]; a NaN anywhere in these
    comparisons fails the test, and nothing bounds a coordinate from
    below. *)
Theorem sphere_test_passes_iff :
  forall (SphereFunctionT LBestPSOT : Type)
         (SphereFunction : N -> SphereFunctionT) (LBestPSO : LBestPSOT)
         (GetInitialPoint : SphereFunctionT -> PSOTest.vec)
         (Optimize : LBestPSOT -> SphereFunctionT -> PSOTest.vec ->
                     option (Outcome LBestPSOT SphereFunctionT PSOTest.vec
                                     Empty_set double))
         (Evaluate : SphereFunctionT -> PSOTest.vec -> double),
    PSOTest.LBestPSOSphereFunctionTest SphereFunction LBestPSO GetInitialPoint
                                       Optimize Evaluate
    = Some PSOTest.Passed
    <-> exists result after,
          Optimize LBestPSO (SphereFunction 4) (GetInitialPoint (SphereFunction 4))
          = Some (Returned result after)
          /\ PrimFloat.eqb result 0%float = false
          /\ PrimFloat.leb (Evaluate (st_function after) (st_iterate after))
                           1e-5%float = true
          /\ forall j, (j < 4)%nat ->
               exists c, nth_error (st_iterate after) j = Some c
                         /\ PrimFloat.leb c 1e-3%float = true.
Proof.
  intros. unfold PSOTest.LBestPSOSphereFunctionTest.
  destruct (Optimize LBestPSO (SphereFunction 4) (GetInitialPoint (SphereFunction 4)))
    as [[result after|err after]|].
  - destruct (PrimFloat.eqb result 0%float) eqn:Ez.
    + split; [discriminate|].
      intros (r & a & E & Hz & _). inversion E; subst. congruence.
    + destruct (PrimFloat.leb (Evaluate (st_function after) (st_iterate after))
                              1e-5%float) eqn:El.
      * split.
        -- intros H. exists result, after. repeat split; try assumption.
           assert (Hp : PSOTest.require_coordinates (st_iterate after) 0 4
                        = PSOTest.Passed) by congruence.
           intros j Hj.
           apply (proj1 (require_coordinates_passed _ 4 0) Hp). lia.
        -- intros (r & a & E & _ & _ & Hc). inversion E; subst. f_equal.
           apply require_coordinates_passed. intros i Hi. apply Hc. lia.
      * split; [discriminate|].
        intros (r & a & E & _ & Hl & _). inversion E; subst. congruence.
  - split; [discriminate|]. intros (r & a & E & _). discriminate.
  - split; [discriminate|]. intros (r & a & E & _). discriminate.
Qed.

(** X5.  The sphere test stops with [FAIL] exactly when the optimizer returns
    positive or negative zero, whatever point it leaves: the test reads the
    returned objective value as a success flag, so a run that reaches the
    objective 0 is reported as a failure, and a NaN objective is not. *)
Theorem sphere_test_fails_iff_zero_objective :
  forall (SphereFunctionT LBestPSOT : Type)
         (SphereFunction : N -> SphereFunctionT) (LBestPSO : LBestPSOT)
         (GetInitialPoint : SphereFunctionT -> PSOTest.vec)
         (Optimize : LBestPSOT -> SphereFunctionT -> PSOTest.vec ->
                     option (Outcome LBestPSOT SphereFunctionT PSOTest.vec
                                     Empty_set double))
         (Evaluate : SphereFunctionT -> PSOTest.vec -> double),
    PSOTest.LBestPSOSphereFunctionTest SphereFunction LBestPSO GetInitialPoint
                                       Optimize Evaluate
    = Some PSOTest.Failed
    <-> exists result after,
          Optimize LBestPSO (SphereFunction 4) (GetInitialPoint (SphereFunction 4))
          = Some (Returned result after)
          /\ (result = zero \/ result = neg_zero).
Proof.
  intros. unfold PSOTest.LBestPSOSphereFunctionTest.
  destruct (Optimize LBestPSO (SphereFunction 4) (GetInitialPoint (SphereFunction 4)))
    as [[result after|err after]|].
  - destruct (PrimFloat.eqb result 0%float) eqn:Ez.
    + split; [|reflexivity].
      intros _. exists result, after. split; [reflexivity|].
      now apply eqb_zero_iff.
    + split.
      * intros H. exfalso.
        destruct (PrimFloat.leb _ _) in H; [|discriminate].
        assert (Hn : forall coords j count,
                   PSOTest.require_coordinates coords j count <> PSOTest.Failed).
        { intros coords j count. revert j.
          induction count as [|count IH]; intros j; cbn; [discriminate|].
          destruct (nth_error coords j); [|discriminate].
          destruct (PrimFloat.leb _ _); [apply IH|discriminate]. }
        apply (Hn (st_iterate after) 0%nat 4%nat). congruence.
      * intros (r & a & E & Hz). inversion E; subst.
        apply eqb_zero_iff in Hz. congruence.
  - split; [discriminate|]. intros (r & a & E & _). discriminate.
  - split; [discriminate|]. intros (r & a & E & _). discriminate.
Qed.

(** X6.  The coordinate check of the sphere test is one-sided: if the
    optimizer returns a non-zero value and the final objective passes its
    check, the test passes whenever the first four coordinates are below
    zero, however far (minus infinity included). *)
Theorem sphere_test_accepts_negative_coordinates :
  forall (SphereFunctionT LBestPSOT : Type)
         (SphereFunction : N -> SphereFunctionT) (LBestPSO : LBestPSOT)
         (GetInitialPoint : SphereFunctionT -> PSOTest.vec)
         (Optimize : LBestPSOT -> SphereFunctionT -> PSOTest.vec ->
                     option (Outcome LBestPSOT SphereFunctionT PSOTest.vec
                                     Empty_set double))
         (Evaluate : SphereFunctionT -> PSOTest.vec -> double)
         (result : double)
         (after : Store LBestPSOT SphereFunctionT PSOTest.vec Empty_set),
    Optimize LBestPSO (SphereFunction 4) (GetInitialPoint (SphereFunction 4))
    = Some (Returned result after) ->
    PrimFloat.eqb result 0%float = false ->
    PrimFloat.leb (Evaluate (st_function after) (st_iterate after)) 1e-5%float
    = true ->
    (forall j, (j < 4)%nat ->
       exists c, nth_error (st_iterate after) j = Some c
                 /\ PrimFloat.ltb c 0%float = true) ->
    PSOTest.LBestPSOSphereFunctionTest SphereFunction LBestPSO GetInitialPoint
                                       Optimize Evaluate
    = Some PSOTest.Passed.
Proof.
  intros until after. intros Hopt Hz Hl Hneg.
  unfold PSOTest.LBestPSOSphereFunctionTest. rewrite Hopt, Hz, Hl. f_equal.
  apply require_coordinates_passed. intros j Hj.
  destruct (Hneg j ltac:(lia)) as (c & E & Hc).
  exists c. split; [exact E|]. now apply negative_is_small.
Qed.

(** An optimizer that leaves the point (-0.002, -0.001, -0.001, -0.001), of
    objective 7e-6 under the sum of squares: its first coordinate exceeds
    1e-3 in magnitude, and by the theorem the test passes. *)
Lemma sphere_test_accepts_negative_coordinates_witness :
  PrimFloat.ltb 1e-3%float (abs (-0.002)%float) = true
  /\ PSOTest.LBestPSOSphereFunctionTest
       (fun _ : N => tt) tt
       (fun _ : unit => [1; 1; 1; 1]%float)
       (fun (s f : unit) (_ : PSOTest.vec) =>
          Some (Returned 7e-6%float
                  (mkStore s f [-0.002; -0.001; -0.001; -0.001]%float [])))
       (fun (_ : unit) (x : PSOTest.vec) =>
          fold_left (fun acc c => (acc + c * c)%float) x 0%float)
     = Some PSOTest.Passed.
Proof.
  split; [reflexivity|].
  apply (sphere_test_accepts_negative_coordinates
           unit unit (fun _ : N => tt) tt (fun _ : unit => [1; 1; 1; 1]%float)
           (fun (s f : unit) (_ : PSOTest.vec) =>
              Some (Returned 7e-6%float
                      (mkStore s f [-0.002; -0.001; -0.001; -0.001]%float [])))
           (fun (_ : unit) (x : PSOTest.vec) =>
              fold_left (fun acc c => (acc + c * c)%float) x 0%float)
           7e-6%float
           (mkStore tt tt [-0.002; -0.001; -0.001; -0.001]%float [])).
  - reflexivity.
  - reflexivity.
  - vm_compute. reflexivity.
  - intros j Hj.
    destruct j as [|[|[|[|j]]]];
      [eexists; split; reflexivity .. | exfalso; lia].
Defined.

(** * Sessions on the facade *)

(** X7.  Whatever the driver's [Optimize] is, any sequence of assignments
    through the accessors and of [Optimize] calls on a Padam object is that
    same sequence on the driver it owns: each call returns or signals the
    same and leaves the same function, iterate and callbacks, the session
    fails to end exactly when the driver's does, and the Padam object at the
    end holds the driver at the end. *)
Theorem facade_session_is_driver_session :
  forall (Moments F MatType GradType CB : Type) (A : ArmaType MatType)
         (FT : SeparableFunctionType F MatType GradType)
         (R : PadamUpdate.Rule Moments MatType GradType)
         (CT : CallbackType CB MatType GradType)
         (sgd : OptimizeType (PadamUpdate.t Moments) NoDecay.t)
         (ops : list (Session.Operation (F := F) (MatType := MatType) (CB := CB)))
         (p : Padam.t Moments),
    Session.on_facade (GradType := GradType) sgd p ops
    = option_map (fun r => (fst r, Padam.mk (snd r)))
        (Session.on_driver (GradType := GradType) sgd (Padam.optimizer p) ops).
Proof.
  intros Moments F MatType GradType CB A FT R CT sgd ops.
  induction ops as [|[a v|function iterate callbacks] rest IH]; intros p.
  - destruct p. reflexivity.
  - cbn [Session.on_facade Session.on_driver]. rewrite IH. f_equal.
    destruct a; reflexivity.
  - cbn [Session.on_facade Session.on_driver]. unfold Padam.Optimize.
    destruct (sgd F MatType GradType CB A FT _ _ CT (Padam.optimizer p)
                  function iterate callbacks) as [out|]; [|reflexivity].
    cbn [option_map].
    replace (outcome_self (map_self Padam.mk out))
      with (Padam.mk (outcome_self out)) by (destruct out; reflexivity).
    rewrite IH. cbn [Padam.optimizer].
    destruct (Session.on_driver sgd (outcome_self out) rest) as [[seen q]|];
      [|reflexivity].
    cbn. destruct out; reflexivity.
Qed.
